(** * Stock availability tracker: a shallow embedding of [main.py]

    The script is a straight-line program over four module-level
    accumulators ([previous_oos_data], [current_oos_products],
    [current_instock_skus], [analysis_report_lines]) and four files.  The
    embedding follows its numbered steps:

    - step 1, the load loop over the previous out-of-stock file;
    - step 3, the checking loop over the three possible outcomes of a
      probe, and the probe itself over the pages that the network returns;
    - step 6, the analysis that builds the unified report;
    - step 7, file rotation and the write of the sorted current file.

    Text is modelled by [string]; a character is a code point below 256.
    Python dictionaries are association lists in insertion order, Python sets
    are duplicate-free lists whose order is left unspecified (every use of a
    set in the script is either a membership test or goes through
    [sorted]). *)

From Stdlib Require Import String Ascii List Bool Arith NArith Lia.
From Stdlib Require Import Permutation Sorted.
From Stdlib Require Import DecimalString.
Import ListNotations.

Local Open Scope list_scope.
Local Open Scope string_scope.

(** ** Python string primitives *)

Module PyStr.

(** [str.isspace] on one character, for code points below 256: the
    control characters 9-13 and 28-31, the space, NEL and NBSP. *)
Definition isspace (c : ascii) : bool :=
  let n := nat_of_ascii c in
  (((9 <=? n) && (n <=? 13)) || ((28 <=? n) && (n <=? 32))
   || (n =? 133) || (n =? 160))%nat.

Fixpoint lstrip (s : string) : string :=
  match s with
  | EmptyString => EmptyString
  | String c r => if isspace c then lstrip r else s
  end.

Fixpoint rstrip (s : string) : string :=
  match s with
  | EmptyString => EmptyString
  | String c r =>
      match rstrip r with
      | EmptyString => if isspace c then EmptyString else String c EmptyString
      | r' => String c r'
      end
  end.

(** [s.strip()] *)
Definition strip (s : string) : string := rstrip (lstrip s).

(** The longest prefix without whitespace, and what follows it. *)
Fixpoint span_token (s : string) : string * string :=
  match s with
  | EmptyString => (EmptyString, EmptyString)
  | String c r =>
      if isspace c then (EmptyString, s)
      else let (tok, rest) := span_token r in (String c tok, rest)
  end.

(** [s.split(maxsplit=1)]: skip leading whitespace, cut the first token,
    skip the whitespace after it and keep whatever remains, if anything. *)
Definition split_maxsplit1 (s : string) : list string :=
  match lstrip s with
  | EmptyString => []
  | s' =>
      let (tok, rest) := span_token s' in
      match lstrip rest with
      | EmptyString => [tok]
      | rest' => [tok; rest']
      end
  end.

(** [s.endswith(")")] *)
Fixpoint endswith_paren (s : string) : bool :=
  match s with
  | EmptyString => false
  | String c EmptyString => Ascii.eqb c ")"%char
  | String _ r => endswith_paren r
  end.

(** [sub in s] *)
Fixpoint contains (sub s : string) : bool :=
  prefix sub s ||
  match s with
  | EmptyString => false
  | String _ r => contains sub r
  end.

Definition LF : ascii := ascii_of_nat 10.
Definition TAB : ascii := ascii_of_nat 9.

Definition CR : ascii := ascii_of_nat 13.

(** The newline translation of a file opened in text mode for reading
    ([newline=None]): a carriage return followed by a line feed, and a
    carriage return alone, become one line feed.  [after_cr] tells that
    the character before was a carriage return, already turned into a line
    feed. *)
Fixpoint translate_newlines (after_cr : bool) (s : string) : string :=
  match s with
  | EmptyString => EmptyString
  | String c r =>
      if Ascii.eqb c CR then String LF (translate_newlines true r)
      else if Ascii.eqb c LF then
        (if after_cr then translate_newlines false r
         else String LF (translate_newlines false r))
      else String c (translate_newlines false r)
  end.

Definition universal_newlines (s : string) : string :=
  translate_newlines false s.

(** A translated text cut after every line feed, each line keeping its
    line feed. *)
Fixpoint split_lines (s : string) : list string :=
  match s with
  | EmptyString => []
  | String c r =>
      if Ascii.eqb c LF then String c EmptyString :: split_lines r
      else match split_lines r with
           | [] => [String c EmptyString]
           | l :: ls => String c l :: ls
           end
  end.

(** Iterating over a file opened with [mode="r"], or [readlines()], on
    the content of the file: newlines are translated and the text is cut
    into lines. *)
Definition readlines (s : string) : list string :=
  split_lines (universal_newlines s).

(** [str(n)] for a non-negative integer. *)
Definition of_nat (n : nat) : string :=
  NilEmpty.string_of_uint (Nat.to_uint n).

(** [f"{s:<15}"]: pad with spaces on the right up to [w] characters. *)
Fixpoint spaces (n : nat) : string :=
  match n with
  | 0 => EmptyString
  | S k => String " "%char (spaces k)
  end.

Definition ljust (w : nat) (s : string) : string :=
  s ++ spaces (w - String.length s).

(** ["=" * n] *)
Fixpoint repeat_eq (n : nat) : string :=
  match n with
  | 0 => EmptyString
  | S k => String "="%char (repeat_eq k)
  end.

End PyStr.

(** ** Dictionaries, sets and [sorted] *)

(** A [dict] with string keys and values, in insertion order.  Assigning to
    a key that is present replaces the value in place. *)
Module PyDict.

Definition t : Type := list (string * string).

(** [d[k] = v] *)
Fixpoint set (d : t) (k v : string) : t :=
  match d with
  | [] => [(k, v)]
  | (k', v') :: r =>
      if String.eqb k' k then (k', v) :: r else (k', v') :: set r k v
  end.

Fixpoint lookup (d : t) (k : string) : option string :=
  match d with
  | [] => None
  | (k', v') :: r => if String.eqb k' k then Some v' else lookup r k
  end.

(** [d.get(k, default)] *)
Definition get (d : t) (k default : string) : string :=
  match lookup d k with
  | Some v => v
  | None => default
  end.

(** [d.keys()] *)
Definition keys (d : t) : list string := map fst d.

(** [len(d)] *)
Definition len (d : t) : nat := List.length d.

End PyDict.

(** A [set] of strings.  The order of the list stands for the iteration
    order, which Python leaves unspecified. *)
Module PySet.

Definition t : Type := list string.

(** [k in s] *)
Definition mem (k : string) (s : t) : bool := existsb (String.eqb k) s.

(** [s.add(k)] *)
Definition add (s : t) (k : string) : t :=
  if mem k s then s else (s ++ [k])%list.

(** [set(iterable)] *)
Definition of_list (l : list string) : t := fold_left add l [].

(** [a | b] *)
Definition union (a b : t) : t := fold_left add b a.

End PySet.

(** [sorted(l, key=key)] and [l.sort(key=key)]: Python's sort is stable and
    compares keys with [<] only.  A stable sort has one possible result, so
    any stable algorithm models it; this is insertion from the right, each
    element going in front of the first one that is not smaller. *)
Section StableSort.

Context {A : Type} (key : A -> string).

Fixpoint insert_sorted (x : A) (l : list A) : list A :=
  match l with
  | [] => [x]
  | y :: r =>
      if String.ltb (key y) (key x) then y :: insert_sorted x r
      else x :: y :: r
  end.

Definition sorted (l : list A) : list A := fold_right insert_sorted [] l.

End StableSort.

(** ** Step 1: reading the previous out-of-stock file *)

(** The body of [for line in prev_file].  For a line that is not blank
    after [strip], [split] returns at least one part (lemma
    [split_of_stripped_nonempty] below), so [parts[0]] never raises and the
    first branch of the [match] is never taken. *)
Definition load_line (previous_oos_data : PyDict.t) (line : string) : PyDict.t :=
  let line := PyStr.strip line in
  if String.eqb line "" then previous_oos_data
  else
    match PyStr.split_maxsplit1 line with
    | [] => previous_oos_data
    | sku :: rest =>
        let url := match rest with u :: _ => u | [] => "N/A" end in
        if negb (PyStr.endswith_paren sku) || negb (PyStr.contains "(Error:" sku)
        then PyDict.set previous_oos_data sku url
        else previous_oos_data
    end.

Definition load_previous (content : string) : PyDict.t :=
  fold_left load_line (PyStr.readlines content) [].

(** ** Step 3: the checking loop *)

(** One entry of [current_oos_products]: [{'sku': ..., 'url': ...}]. *)
Record Product : Type := mkProduct { sku : string; url : string }.

(** What the network exchange for one SKU comes to (lines 80-113): stock
    was found, no stock was found and [product_url] is the page looked at,
    or an exception of class [exc_name] was raised while [product_url] was
    the page at hand. *)
Inductive ProbeOutcome : Type :=
| IN_STOCK
| OUT_OF_STOCK (product_url : string)
| ERROR (exc_name : string) (product_url : string).

Record CheckState : Type := mkCheckState {
  current_instock_skus : PySet.t;
  current_oos_products : list Product
}.

Definition check_init : CheckState := mkCheckState [] [].

(** [f"{sku} (Error: {type(e).__name__})"] *)
Definition error_sku (raw exc_name : string) : string :=
  raw ++ " (Error: " ++ exc_name ++ ")".

(** The body of [for product_line in products_to_check]. *)
Definition check_sku (st : CheckState) (probe : string * ProbeOutcome) : CheckState :=
  let '(product_line, outcome) := probe in
  let raw := PyStr.strip product_line in
  if String.eqb raw "" then st
  else
    match outcome with
    | IN_STOCK =>
        mkCheckState (PySet.add (current_instock_skus st) raw)
                     (current_oos_products st)
    | OUT_OF_STOCK product_url =>
        mkCheckState (current_instock_skus st)
                     (current_oos_products st ++ [mkProduct raw product_url])%list
    | ERROR exc_name product_url =>
        mkCheckState (current_instock_skus st)
                     (current_oos_products st
                        ++ [mkProduct (error_sku raw exc_name) product_url])%list
    end.

Definition checking_loop (probes : list (string * ProbeOutcome)) : CheckState :=
  fold_left check_sku probes check_init.

(** The lines of the SKU file paired with the outcome of their probe; the
    prober is a function of the position of the line and of the SKU. *)
Definition probes_of (prober : nat -> string -> ProbeOutcome)
    (products_to_check : list string) : list (string * ProbeOutcome) :=
  map (fun '(i, product_line) => (product_line, prober i (PyStr.strip product_line)))
      (combine (seq 0 (List.length products_to_check)) products_to_check).

(** ** Step 6: the analysis *)

(** [{item['sku']: item['url'] for item in current_oos_products
      if not item['sku'].endswith(")")}] *)
Definition current_oos_dict (products : list Product) : PyDict.t :=
  fold_left
    (fun d item =>
       if PyStr.endswith_paren (sku item) then d
       else PyDict.set d (sku item) (url item))
    products [].

Definition current_oos_skus_set (products : list Product) : PySet.t :=
  PySet.of_list (PyDict.keys (current_oos_dict products)).

Definition previous_oos_skus_set (previous_oos_data : PyDict.t) : PySet.t :=
  PySet.of_list (PyDict.keys previous_oos_data).

Definition all_relevant_skus (previous_oos_data : PyDict.t)
    (products : list Product) : PySet.t :=
  PySet.union (previous_oos_skus_set previous_oos_data)
              (current_oos_skus_set products).

(** The keys of the [summary] dictionary. *)
Inductive Status : Type := RESTOCKED | STILL_OOS | NEWLY_OOS | ERROR_PREV_OOS.

Record Summary : Type := mkSummary {
  n_RESTOCKED : nat;
  n_STILL_OOS : nat;
  n_NEWLY_OOS : nat;
  n_ERROR_PREV_OOS : nat
}.

Definition summary_init : Summary := mkSummary 0 0 0 0.

(** [summary[st] += 1] *)
Definition summary_incr (s : Summary) (st : Status) : Summary :=
  match st with
  | RESTOCKED =>
      mkSummary (n_RESTOCKED s + 1) (n_STILL_OOS s) (n_NEWLY_OOS s) (n_ERROR_PREV_OOS s)
  | STILL_OOS =>
      mkSummary (n_RESTOCKED s) (n_STILL_OOS s + 1) (n_NEWLY_OOS s) (n_ERROR_PREV_OOS s)
  | NEWLY_OOS =>
      mkSummary (n_RESTOCKED s) (n_STILL_OOS s) (n_NEWLY_OOS s + 1) (n_ERROR_PREV_OOS s)
  | ERROR_PREV_OOS =>
      mkSummary (n_RESTOCKED s) (n_STILL_OOS s) (n_NEWLY_OOS s) (n_ERROR_PREV_OOS s + 1)
  end.

Definition summary_get (s : Summary) (st : Status) : nat :=
  match st with
  | RESTOCKED => n_RESTOCKED s
  | STILL_OOS => n_STILL_OOS s
  | NEWLY_OOS => n_NEWLY_OOS s
  | ERROR_PREV_OOS => n_ERROR_PREV_OOS s
  end.

Section Analysis.

Variable previous_oos_data : PyDict.t.
Variable st : CheckState.

Let products := current_oos_products st.

(** The [if]/[elif] chain of lines 138-163: the summary key that is
    incremented and the URL that goes into the status line, or [None]
    when [status_line] stays [None]. *)
Definition classify (sku : string) : option (Status * string) :=
  let in_previous := PySet.mem sku (previous_oos_skus_set previous_oos_data) in
  let in_current_oos := PySet.mem sku (current_oos_skus_set products) in
  let in_current_instock := PySet.mem sku (current_instock_skus st) in
  if in_previous && in_current_instock then
    Some (RESTOCKED, PyDict.get previous_oos_data sku "N/A")
  else if in_previous && in_current_oos then
    Some (STILL_OOS, PyDict.get (current_oos_dict products) sku "N/A")
  else if negb in_previous && in_current_oos then
    Some (NEWLY_OOS, PyDict.get (current_oos_dict products) sku "N/A")
  else if in_previous && negb in_current_oos && negb in_current_instock then
    Some (ERROR_PREV_OOS, PyDict.get previous_oos_data sku "N/A")
  else None.

(** The text of [status_line] in each branch. *)
Definition status_line (s : Status) (sku url : string) : string :=
  match s with
  | RESTOCKED =>
      PyStr.ljust 15 "[+] RESTOCKED" ++ ": " ++ sku ++ " (Was OOS: " ++ url ++ ")"
  | STILL_OOS =>
      PyStr.ljust 15 "[-] STILL OOS" ++ ": " ++ sku ++ " (Link: " ++ url ++ ")"
  | NEWLY_OOS =>
      PyStr.ljust 15 "[!] NEWLY OOS" ++ ": " ++ sku ++ " (Link: " ++ url ++ ")"
  | ERROR_PREV_OOS =>
      PyStr.ljust 15 "[E] ERROR" ++ ": " ++ sku ++ " (Was OOS: " ++ url
        ++ ") - Current status unknown (check error?)"
  end.

(** The body of [for sku in sorted(list(all_relevant_skus))], on the pair
    of the status lines appended so far and [summary]. *)
Definition analyse_sku (acc : list string * Summary) (sku : string)
  : list string * Summary :=
  match classify sku with
  | Some (s, url) =>
      (app (fst acc) [status_line s sku url], summary_incr (snd acc) s)
  | None => acc
  end.

Definition analysis_loop : list string * Summary :=
  fold_left analyse_sku
    (sorted (fun s => s) (all_relevant_skus previous_oos_data products))
    ([], summary_init).

(** [len(current_oos_products)], the number in the last summary line. *)
Definition total_currently_oos : nat := List.length products.

Definition total_line (n : nat) : string :=
  "  Total Currently OOS (incl errors): " ++ PyStr.of_nat n.

Definition summary_lines (s : Summary) : list string :=
  let counts :=
    [ PyStr.repeat_eq 30;
      "Summary:";
      "  Restocked:        " ++ PyStr.of_nat (n_RESTOCKED s);
      "  Still OutOfStock: " ++ PyStr.of_nat (n_STILL_OOS s);
      "  Newly OutOfStock: " ++ PyStr.of_nat (n_NEWLY_OOS s) ] in
  let errors :=
    if Nat.ltb 0 (n_ERROR_PREV_OOS s)
    then [ "  Errors (Prev OOS):" ++ PyStr.of_nat (n_ERROR_PREV_OOS s) ]
    else [] in
  app counts (app errors [ total_line total_currently_oos ]).

Definition report_header (run_timestamp : string) : list string :=
  [ "Analysis Report - " ++ run_timestamp; PyStr.repeat_eq 30 ].

(** [analysis_report_lines] as it stands when step 6 is over. *)
Definition analysis_report_lines (run_timestamp : string) : list string :=
  app (report_header run_timestamp)
      match all_relevant_skus previous_oos_data products with
      | [] => [ "No out-of-stock items found previously or currently." ]
      | _ :: _ => app (fst analysis_loop) (summary_lines (snd analysis_loop))
      end.

End Analysis.

(** ** Files, and step 7 *)

(** The four configured paths.  They are [BASE_DIR] joined with four
    different file names, hence pairwise different. *)
Inductive Path : Type :=
| SKU_FILE_PATH
| CURRENT_OOS_FILE_PATH
| PREVIOUS_OOS_FILE_PATH
| CHANGE_REPORT_FILE_PATH.

Definition Path_eqb (p q : Path) : bool :=
  match p, q with
  | SKU_FILE_PATH, SKU_FILE_PATH
  | CURRENT_OOS_FILE_PATH, CURRENT_OOS_FILE_PATH
  | PREVIOUS_OOS_FILE_PATH, PREVIOUS_OOS_FILE_PATH
  | CHANGE_REPORT_FILE_PATH, CHANGE_REPORT_FILE_PATH => true
  | _, _ => false
  end.

(** A file is absent or has a content: the text that was written to it,
    with the line feed as line end. *)
Definition Files : Type := Path -> option string.

Definition files_set (fs : Files) (p : Path) (c : option string) : Files :=
  fun q => if Path_eqb q p then c else fs q.

(** What the script does to the files, in the order in which it does it. *)
Inductive Event : Type :=
| EvRead (p : Path)
| EvReplace (src dst : Path)
| EvWrite (p : Path) (content : string).

Record World : Type := mkWorld { files : Files; events : list Event }.

Inductive Exception : Type := FileNotFoundError.

(** The result of a statement that may raise. *)
Inductive Result (A : Type) : Type :=
| Ok (a : A)
| Raise (e : Exception).
Arguments Ok {A} a.
Arguments Raise {A} e.

(** [open(p, mode="r")]: the content of the file is handed over as it is
    stored.  The script only ever reads a file line by line, and the
    newline translation of text mode is applied there, by
    [PyStr.readlines]. *)
Definition open_read (w : World) (p : Path) : Result (string * World) :=
  match files w p with
  | Some content => Ok (content, mkWorld (files w) (app (events w) [EvRead p]))
  | None => Raise FileNotFoundError
  end.

(** [os.replace(src, dst)] *)
Definition os_replace (w : World) (src dst : Path) : Result World :=
  match files w src with
  | Some content =>
      Ok (mkWorld (files_set (files_set (files w) dst (Some content)) src None)
                  (app (events w) [EvReplace src dst]))
  | None => Raise FileNotFoundError
  end.

(** [open(p, mode="w")] followed by the writes, whose text is [content]. *)
Definition open_write (w : World) (p : Path) (content : string) : World :=
  mkWorld (files_set (files w) p (Some content)) (app (events w) [EvWrite p content]).

(** Step 1 with its handler: a missing file leaves [previous_oos_data]
    empty. *)
Definition read_previous (w : World) : Result (PyDict.t * World) :=
  match open_read w PREVIOUS_OOS_FILE_PATH with
  | Ok (content, w') => Ok (load_previous content, w')
  | Raise FileNotFoundError => Ok ([], w)
  end.

(** The [try] block that rotates the files. *)
Definition rotate_files (w : World) : Result World :=
  match os_replace w CURRENT_OOS_FILE_PATH PREVIOUS_OOS_FILE_PATH with
  | Ok w' => Ok w'
  | Raise FileNotFoundError => Ok w
  end.

(** [f"{item['sku']}\t{item['url']}\n"] *)
Definition snapshot_line (item : Product) : string :=
  sku item ++ String PyStr.TAB (url item ++ String PyStr.LF "").

(** The text written to the current out-of-stock file: the list is sorted
    in place by SKU, then one line is written per item. *)
Definition snapshot_text (products : list Product) : string :=
  fold_right String.append "" (map snapshot_line (sorted sku products)).

Definition write_current_oos (w : World) (products : list Product) : World :=
  open_write w CURRENT_OOS_FILE_PATH (snapshot_text products).

(** [line + "\n"] for every line of the report. *)
Definition report_text (lines : list string) : string :=
  fold_right String.append "" (map (fun line => line ++ String PyStr.LF "") lines).

Definition WRITE_CHANGE_REPORT_FILE : bool := true.

Definition write_change_report (w : World) (lines : list string) : World :=
  if WRITE_CHANGE_REPORT_FILE
  then open_write w CHANGE_REPORT_FILE_PATH (report_text lines)
  else w.

(** ** The whole script *)

Inductive Run : Type :=
| Exited (w : World)
| Finished (w : World) (report : list string).

(** Sequencing of statements that may raise. *)
Definition bind {A} (r : Result A) (k : A -> Result Run) : Result Run :=
  match r with
  | Ok a => k a
  | Raise e => Raise e
  end.

Notation "x <- r ;; k" := (bind r (fun x => k))
  (at level 61, r at next level, right associativity).
Notation "' pat <- r ;; k" := (bind r (fun x => match x with pat => k end))
  (at level 61, pat pattern, r at next level, right associativity).

Definition main (run_timestamp : string)
    (prober : nat -> string -> ProbeOutcome) (w : World) : Result Run :=
  '(previous_oos_data, w) <- read_previous w ;;
  match open_read w SKU_FILE_PATH with
  | Raise FileNotFoundError => Ok (Exited w)
  | Ok (content, w) =>
      let products_to_check := PyStr.readlines content in
      let st := checking_loop (probes_of prober products_to_check) in
      let report := analysis_report_lines previous_oos_data st run_timestamp in
      w <- rotate_files w ;;
      let w := write_current_oos w (current_oos_products st) in
      let w := write_change_report w report in
      Ok (Finished w report)
  end.

(** ** Step 3 in detail: the probe of one SKU *)

Definition BASE_URL : string := "https://example-store.com".

(** [f"{BASE_URL}/search.php?search_query={sku}"] *)
Definition search_url_of (sku : string) : string :=
  BASE_URL ++ "/search.php?search_query=" ++ sku.

(** What the script looks at in a parsed page: the [href] of each element
    selected by ['a.product-title'] ([None] when the attribute is absent),
    and, when ['.ProductQty select'] selects an element, the [value] of
    each of its [option] elements. *)
Record Page : Type := mkPage {
  product_links : list (option string);
  qty_select : option (list (option string))
}.

(** [requests.get], [raise_for_status] and the parse taken together: a page,
    or an exception of some class. *)
Inductive Fetch : Type :=
| Fetched (page : Page)
| Failed (exc_name : string).

(** An expression that gives a value or raises an exception of the class
    named. *)
Inductive Attempt (A : Type) : Type :=
| Done (a : A)
| Throws (exc_name : string).
Arguments Done {A} a.
Arguments Throws {A} exc_name.

Fixpoint all_chars (f : ascii -> bool) (s : string) : bool :=
  match s with
  | EmptyString => true
  | String c r => f c && all_chars f r
  end.

Definition is_decimal_char (c : ascii) : bool :=
  let n := nat_of_ascii c in ((48 <=? n) && (n <=? 57))%nat.

(** The characters below 256 that [str.isdigit] accepts: the decimal
    digits and the superscripts one, two and three. *)
Definition is_digit_char (c : ascii) : bool :=
  let n := nat_of_ascii c in
  (is_decimal_char c || (n =? 178) || (n =? 179) || (n =? 185))%nat.

(** [s.isdigit()] *)
Definition isdigit (s : string) : bool :=
  negb (String.eqb s "") && all_chars is_digit_char s.

Fixpoint digits_value (acc : N) (s : string) : N :=
  match s with
  | EmptyString => acc
  | String c r => digits_value (10 * acc + (N_of_ascii c - 48))%N r
  end.

(** [int(s)] for a string that passed [isdigit]: [ValueError] when a
    character is not a decimal digit, and when there are more than 4300
    digits (the default limit of the interpreter on conversions). *)
Definition int_of_digits (s : string) : Attempt N :=
  if all_chars is_decimal_char s && (String.length s <=? 4300)%nat
  then Done (digits_value 0 s)
  else Throws "ValueError".

(** [any(val and val.isdigit() and int(val) > 0 for val in values)]: the
    values are tried in order and the first positive one ends the search. *)
Fixpoint any_positive (values : list (option string)) : Attempt bool :=
  match values with
  | [] => Done false
  | None :: rest => any_positive rest
  | Some val :: rest =>
      if String.eqb val "" then any_positive rest
      else if isdigit val then
        match int_of_digits val with
        | Done n => if (0 <? n)%N then Done true else any_positive rest
        | Throws e => Throws e
        end
      else any_positive rest
  end.

(** Lines 98-104 *)
Definition has_stock (prod_soup : Page) : Attempt bool :=
  match qty_select prod_soup with
  | Some values => any_positive values
  | None => Done false
  end.

(** Lines 98-109 and the handler, once [prod_soup] and [product_url] are
    known. *)
Definition stock_outcome (product_url : string) (prod_soup : Page) : ProbeOutcome :=
  match has_stock prod_soup with
  | Done true => IN_STOCK
  | Done false => OUT_OF_STOCK product_url
  | Throws e => ERROR e product_url
  end.

(** Lines 76-113 for one SKU.  When the first link has no [href],
    [product_url] is [None] by the time [startswith] raises, and the
    record is written with the text [None]. *)
Definition probe_sku (net : string -> Fetch) (sku : string) : ProbeOutcome :=
  let search_url := search_url_of sku in
  match net search_url with
  | Failed e => ERROR e search_url
  | Fetched soup =>
      match product_links soup with
      | [] => stock_outcome search_url soup
      | None :: _ => ERROR "AttributeError" "None"
      | Some href :: _ =>
          let product_url :=
            if prefix "http" href then href else BASE_URL ++ href in
          match net product_url with
          | Failed e => ERROR e product_url
          | Fetched prod_soup => stock_outcome product_url prod_soup
          end
      end
  end.

(** The prober of a run, the network being given for each line. *)
Definition prober_of (net : nat -> string -> Fetch) : nat -> string -> ProbeOutcome :=
  fun i sku => probe_sku (net i) sku.

(** ** Notions used in the statements *)

(** [a <= b] written with the only comparison the sort uses. *)
Definition le_str (a b : string) : Prop := String.ltb b a = false.

(** The line feed and the tab as strings. *)
Definition nl : string := String PyStr.LF "".
Definition tab : string := String PyStr.TAB "".

(** Presence of a key in a mapping. *)
Definition present (d : PyDict.t) (k : string) : bool :=
  match PyDict.lookup d k with
  | Some _ => true
  | None => false
  end.

(** Which snapshot the emitted URL comes from. *)
Inductive UrlSource : Type := PreviousUrl | CurrentUrl.

Record TableRow : Type := mkRow {
  row_cond : bool -> bool -> bool -> bool;
  row_class : Status;
  row_url : UrlSource
}.

(** The classification table as the specification words it (section 4.2,
    step 2): four rows, read in order, each with a condition on
    [inPrev], [inCurrOos] and [inCurrStock], a class, and the snapshot whose
    URL is emitted.  The class called STATUS_UNKNOWN there is the one
    counted under the key [ERROR_PREV_OOS]. *)
Definition precedence_table : list TableRow :=
  [ mkRow (fun inPrev inCurrOos inCurrStock => inPrev && inCurrStock)
          RESTOCKED PreviousUrl;
    mkRow (fun inPrev inCurrOos inCurrStock => inPrev && inCurrOos)
          STILL_OOS CurrentUrl;
    mkRow (fun inPrev inCurrOos inCurrStock => negb inPrev && inCurrOos)
          NEWLY_OOS CurrentUrl;
    mkRow (fun inPrev inCurrOos inCurrStock =>
             inPrev && negb inCurrOos && negb inCurrStock)
          ERROR_PREV_OOS PreviousUrl ].

(** First match wins; no match, no line.  The URL is what the chosen
    snapshot holds for the SKU. *)
Definition table_classify (previousSnapshot confirmedOos : PyDict.t)
    (inStock : PySet.t) (sku : string) : option (Status * option string) :=
  let inPrev := present previousSnapshot sku in
  let inCurrOos := present confirmedOos sku in
  let inCurrStock := PySet.mem sku inStock in
  match find (fun row => row_cond row inPrev inCurrOos inCurrStock) precedence_table with
  | Some row =>
      Some (row_class row,
            match row_url row with
            | PreviousUrl => PyDict.lookup previousSnapshot sku
            | CurrentUrl => PyDict.lookup confirmedOos sku
            end)
  | None => None
  end.

(** The status lines that the analysis loop appends for one SKU. *)
Definition status_lines_of (previous_oos_data : PyDict.t) (st : CheckState)
    (sku : string) : list string :=
  match classify previous_oos_data st sku with
  | Some (s, url) => [status_line s sku url]
  | None => []
  end.

Definition Status_eqb (a b : Status) : bool :=
  match a, b with
  | RESTOCKED, RESTOCKED
  | STILL_OOS, STILL_OOS
  | NEWLY_OOS, NEWLY_OOS
  | ERROR_PREV_OOS, ERROR_PREV_OOS => true
  | _, _ => false
  end.

(** The outcome of the loop body for one SKU: the summary key it
    increments, or [None] when it appends no line. *)
Definition outcome (previous_oos_data : PyDict.t) (st : CheckState)
    (sku : string) : option Status :=
  option_map fst (classify previous_oos_data st sku).

Definition has_status (previous_oos_data : PyDict.t) (st : CheckState)
    (s : Status) (sku : string) : bool :=
  match outcome previous_oos_data st sku with
  | Some s' => Status_eqb s s'
  | None => false
  end.

Definition no_line (previous_oos_data : PyDict.t) (st : CheckState)
    (sku : string) : bool :=
  match outcome previous_oos_data st sku with
  | Some _ => false
  | None => true
  end.

(** The five outcomes of the specification. *)
Definition outcomes : list (option Status) :=
  [ Some RESTOCKED; Some STILL_OOS; Some NEWLY_OOS; Some ERROR_PREV_OOS; None ].

(** Two dictionaries that hold the same value under every key, and two
    sets with the same members, whatever their insertion orders. *)
Definition same_map (d d' : PyDict.t) : Prop :=
  forall k, PyDict.lookup d k = PyDict.lookup d' k.

Definition same_set (s s' : PySet.t) : Prop :=
  forall k, PySet.mem k s = PySet.mem k s'.

(** Occurrence of a character in a string. *)
Fixpoint has_char (c : ascii) (s : string) : bool :=
  match s with
  | EmptyString => false
  | String x r => Ascii.eqb x c || has_char c r
  end.

(** A record neither field of which holds a line feed or a carriage
    return. *)
Definition single_line (item : Product) : Prop :=
  (has_char PyStr.LF (sku item) = false /\ has_char PyStr.CR (sku item) = false)
  /\ (has_char PyStr.LF (url item) = false /\ has_char PyStr.CR (url item) = false).

(** A string without whitespace. *)
Fixpoint is_token (s : string) : bool :=
  match s with
  | EmptyString => true
  | String c r => negb (PyStr.isspace c) && is_token r
  end.

(** The file events of one run of the script, as the specification orders
    them: the reads, then the rotation if there is a current file, then the
    write of the new current file, then the report. *)
Definition expected_events (before : Files) (snapshot report : string) : list Event :=
  app (match before PREVIOUS_OOS_FILE_PATH with
       | Some _ => [EvRead PREVIOUS_OOS_FILE_PATH]
       | None => []
       end)
      (app [EvRead SKU_FILE_PATH]
           (app (match before CURRENT_OOS_FILE_PATH with
                 | Some _ => [EvReplace CURRENT_OOS_FILE_PATH PREVIOUS_OOS_FILE_PATH]
                 | None => []
                 end)
                [EvWrite CURRENT_OOS_FILE_PATH snapshot;
                 EvWrite CHANGE_REPORT_FILE_PATH report])).

(** ** The probes of a run *)

(** The SKU of a line of the SKU file. *)
Definition raw_sku (probe : string * ProbeOutcome) : string :=
  PyStr.strip (fst probe).

(** The lines that are probed: those that are not blank. *)
Definition probed (probes : list (string * ProbeOutcome))
  : list (string * ProbeOutcome) :=
  filter (fun p => negb (String.eqb (raw_sku p) "")) probes.

Definition is_in_stock (p : string * ProbeOutcome) : bool :=
  match snd p with IN_STOCK => true | _ => false end.

Definition is_out_of_stock (p : string * ProbeOutcome) : bool :=
  match snd p with OUT_OF_STOCK _ => true | _ => false end.

Definition is_error (p : string * ProbeOutcome) : bool :=
  match snd p with ERROR _ _ => true | _ => false end.

(** The SKUs whose probe raised. *)
Definition errored_skus (probes : list (string * ProbeOutcome)) : list string :=
  map raw_sku (filter is_error (probed probes)).

(** What one probe appends to [current_oos_products]. *)
Definition product_of (p : string * ProbeOutcome) : list Product :=
  match snd p with
  | IN_STOCK => []
  | OUT_OF_STOCK product_url => [mkProduct (raw_sku p) product_url]
  | ERROR exc_name product_url =>
      [mkProduct (error_sku (raw_sku p) exc_name) product_url]
  end.

(** The body of the comprehension that builds [current_oos_dict]. *)
Definition oos_dict_step (d : PyDict.t) (item : Product) : PyDict.t :=
  if PyStr.endswith_paren (sku item) then d
  else PyDict.set d (sku item) (url item).

(** ** Sample inputs *)

(** The same previous snapshot loaded from two files whose lines are in
    different orders, and the same observations made in two probe
    orders. *)
Definition sample_previous : PyDict.t := [("A", "u1"); ("B", "u2")].
Definition sample_previous' : PyDict.t := [("B", "u2"); ("A", "u1")].

Definition sample_probes : list (string * ProbeOutcome) :=
  [ ("A" ++ nl, IN_STOCK); ("B" ++ nl, OUT_OF_STOCK "u2b");
    ("C" ++ nl, OUT_OF_STOCK "u3"); ("D" ++ nl, IN_STOCK) ].
Definition sample_probes' : list (string * ProbeOutcome) :=
  [ ("D" ++ nl, IN_STOCK); ("C" ++ nl, OUT_OF_STOCK "u3");
    ("B" ++ nl, OUT_OF_STOCK "u2b"); ("A" ++ nl, IN_STOCK) ].

Definition sample_products : list Product :=
  [ mkProduct "SKU-9 (Error: Timeout)" "s9"; mkProduct "B" "u2b";
    mkProduct "A-10" "u1"; mkProduct "B" "u2c" ].

(** A first run: only the SKU file exists. *)
Definition first_run_files : Files :=
  fun p => match p with
           | SKU_FILE_PATH => Some ("B" ++ nl ++ "A" ++ nl)
           | _ => None
           end.

(** A later run: both snapshot files exist. *)
Definition later_run_files : Files :=
  fun p => match p with
           | SKU_FILE_PATH => Some ("B" ++ nl ++ "A" ++ nl)
           | CURRENT_OOS_FILE_PATH => Some ("A" ++ tab ++ "u1" ++ nl)
           | PREVIOUS_OOS_FILE_PATH => Some ("Z" ++ tab ++ "u0" ++ nl)
           | CHANGE_REPORT_FILE_PATH => None
           end.

Definition sample_prober (i : nat) (sku : string) : ProbeOutcome :=
  if String.eqb sku "A" then IN_STOCK else OUT_OF_STOCK ("u_" ++ sku).

(** The same SKU on two lines of the SKU file, out of stock both times. *)
Definition repeated_probes : list (string * ProbeOutcome) :=
  [ ("A" ++ nl, OUT_OF_STOCK "u"); ("A" ++ nl, OUT_OF_STOCK "u") ].

(** A SKU whose own text ends with a closing parenthesis, found out of
    stock, next to an ordinary one. *)
Definition paren_probes : list (string * ProbeOutcome) :=
  [ ("AB(1)" ++ nl, OUT_OF_STOCK "u1"); ("B" ++ nl, OUT_OF_STOCK "u2") ].

(** A run in which the probe of the only SKU raises. *)
Definition error_run_files : Files :=
  fun p => match p with
           | SKU_FILE_PATH => Some ("SKU-9" ++ nl)
           | _ => None
           end.

Definition error_prober (i : nat) (sku : string) : ProbeOutcome :=
  ERROR "Timeout" ("https://example-store.com/search.php?search_query=" ++ sku).

(** ** Notions used in the statements about the probe *)

(** A non-empty string of decimal digits that are not all zero. *)
Definition positive_decimal (val : string) : bool :=
  negb (String.eqb val "")
  && all_chars is_decimal_char val
  && negb (all_chars (fun c => Ascii.eqb c "0"%char) val).

Definition positive_value (v : option string) : bool :=
  match v with
  | Some val => positive_decimal val
  | None => false
  end.

(** A value on which [int] cannot raise: either [isdigit] rejects it, or
    it is made of at most 4300 decimal digits. *)
Definition convertible (val : string) : bool :=
  negb (isdigit val)
  || (all_chars is_decimal_char val && (String.length val <=? 4300)%nat).

Definition sample_page : Page :=
  mkPage [] (Some [None; Some ""; Some "0"; Some "x1"; Some "03"; Some "7"]).

(** A network that answers every URL with the same page without links. *)
Definition sample_net (url : string) : Fetch := Fetched sample_page.

(** A page whose quantity selector holds a superscript two. *)
Definition superscript_values : list (option string) :=
  [ Some "0"; Some (String (ascii_of_nat 178) ""); Some "5" ].

(** A value that neither ends the search of [any] nor makes [int]
    raise. *)
Definition harmless (v : option string) : bool :=
  match v with
  | Some val => convertible val && negb (positive_decimal val)
  | None => true
  end.

(** What can be said of the URL that a probe records. *)
Definition recorded_url_ok (o : ProbeOutcome) : Prop :=
  match o with
  | IN_STOCK => True
  | OUT_OF_STOCK product_url => prefix "http" product_url = true
  | ERROR exc_name product_url =>
      prefix "http" product_url = true
      \/ (exc_name = "AttributeError" /\ product_url = "None")
  end.

(** A network for a run over two lines: the first SKU has a product page
    with stock, the second has none. *)
Definition linked_net (i : nat) (url : string) : Fetch :=
  if String.eqb url (search_url_of "A")
  then Fetched (mkPage [Some "/products/a"] None)
  else if String.eqb url (BASE_URL ++ "/products/a")
  then Fetched (mkPage [] (Some [Some "0"; Some "2"]))
  else Fetched (mkPage [] None).

(** ** Notions used in the statements about the snapshot files *)

(** The test of line 49 for an error remnant. *)
Definition error_like (sku : string) : bool :=
  PyStr.endswith_paren sku && PyStr.contains "(Error:" sku.

(** A SKU that the load loop reads back as it is: not empty, without
    whitespace, and not taken for an error remnant. *)
Definition clean_sku (s : string) : Prop :=
  s <> "" /\ is_token s = true /\ error_like s = false.

(** A URL that the load loop reads back as it is: not empty, without line
    feed or carriage return, and without whitespace at either end. *)
Definition clean_url (u : string) : Prop :=
  u <> "" /\ has_char PyStr.LF u = false /\ has_char PyStr.CR u = false
  /\ PyStr.lstrip u = u /\ PyStr.rstrip u = u.

Definition clean_record (item : Product) : Prop :=
  clean_sku (sku item) /\ clean_url (url item).

(** A text that is empty or ends with a line feed. *)
Definition complete_lines (content : string) : Prop :=
  content = "" \/ exists c, content = c ++ nl.

Definition clean_products : list Product :=
  [ mkProduct "B-2" "https://example-store.com/products/b 2";
    mkProduct "A(1)" "https://example-store.com/search.php?search_query=A(1)" ].

Definition sample_previous_text : string :=
  "A" ++ tab ++ "u1" ++ nl ++ "B" ++ tab ++ "u2" ++ nl.

(** ** Notions used in the statements about whole runs *)

(** What the report says of a SKU probed once, from whether the previous
    snapshot has it and from what its probe gave. *)
Definition expected_outcome (in_previous : bool) (p : string * ProbeOutcome)
  : option Status :=
  match snd p with
  | IN_STOCK => if in_previous then Some RESTOCKED else None
  | OUT_OF_STOCK _ =>
      if PyStr.endswith_paren (raw_sku p)
      then (if in_previous then Some ERROR_PREV_OOS else None)
      else (if in_previous then Some STILL_OOS else Some NEWLY_OOS)
  | ERROR _ _ => if in_previous then Some ERROR_PREV_OOS else None
  end.

(** A line of the SKU file reduced to what the checking loop uses of it. *)
Definition canonical (p : string * ProbeOutcome) : string * ProbeOutcome :=
  (raw_sku p, snd p).

Definition NO_OOS_LINE : string :=
  "No out-of-stock items found previously or currently.".

(** A first run in which every probe raises. *)
Definition failing_probes : list (string * ProbeOutcome) :=
  [ ("A" ++ nl, ERROR "ConnectionError" "https://example-store.com/search.php?search_query=A");
    ("B" ++ nl, ERROR "Timeout" "https://example-store.com/search.php?search_query=B") ].

(** The same SKUs and outcomes as [sample_probes], written with blank
    lines and stray blanks. *)
Definition untidy_probes : list (string * ProbeOutcome) :=
  [ (nl, ERROR "Timeout" "x"); ("  A " ++ nl, IN_STOCK); ("B", OUT_OF_STOCK "u2b");
    ("   " ++ nl, IN_STOCK); (tab ++ "C" ++ nl, OUT_OF_STOCK "u3"); ("D" ++ nl, IN_STOCK) ].

(** What the loop body does with a stripped, non-empty SKU and the
    outcome of its probe. *)
Definition record_outcome (st : CheckState) (c : string * ProbeOutcome) : CheckState :=
  match snd c with
  | IN_STOCK =>
      mkCheckState (PySet.add (current_instock_skus st) (fst c))
                   (current_oos_products st)
  | OUT_OF_STOCK product_url =>
      mkCheckState (current_instock_skus st)
                   (app (current_oos_products st) [mkProduct (fst c) product_url])
  | ERROR exc_name product_url =>
      mkCheckState (current_instock_skus st)
                   (app (current_oos_products st)
                        [mkProduct (error_sku (fst c) exc_name) product_url])
  end.

(** The dictionary that step 1 builds from the files as they are. *)
Definition previous_of (fs : Files) : PyDict.t :=
  match fs PREVIOUS_OOS_FILE_PATH with
  | Some content => load_previous content
  | None => []
  end.

(** The state of the checking loop of a run over the SKU file [content]. *)
Definition check_state_of (prober : nat -> string -> ProbeOutcome)
    (content : string) : CheckState :=
  checking_loop (probes_of prober (PyStr.readlines content)).

Definition no_sku_files : Files :=
  fun p => match p with
           | PREVIOUS_OOS_FILE_PATH => Some ("Z" ++ tab ++ "u0" ++ nl)
           | CURRENT_OOS_FILE_PATH => Some ("A" ++ tab ++ "u1" ++ nl)
           | _ => None
           end.

(** One SKU in stock, one out of stock, two whose probe raised. *)
Definition mixed_probes : list (string * ProbeOutcome) :=
  [ ("A" ++ nl, IN_STOCK); ("B" ++ nl, OUT_OF_STOCK "u2");
    ("C" ++ nl, ERROR "Timeout" "u3"); ("D" ++ nl, ERROR "HTTPError" "u4") ].

(** The SKU of [repeated_probes] on one line only. *)
Definition single_probes : list (string * ProbeOutcome) :=
  [ ("A" ++ nl, OUT_OF_STOCK "u") ].

(** The page on which the probe of [sku] makes its stock test, and its
    URL: the search page when it shows no product link, else the page that
    the first product link leads to. *)
Definition examines (net : string -> Fetch) (sku url : string) (page : Page) : Prop :=
  exists soup,
    net (search_url_of sku) = Fetched soup
    /\ ((product_links soup = [] /\ url = search_url_of sku /\ page = soup)
        \/ exists href links,
             product_links soup = Some href :: links
             /\ url = (if prefix "http" href then href else BASE_URL ++ href)
             /\ net url = Fetched page).

(** * Properties *)

(** ** The model on small inputs *)

Example strip_ex : PyStr.strip ("  AB-1 " ++ String PyStr.LF "") = "AB-1".
Proof. reflexivity. Qed.

Example split_ex :
  PyStr.split_maxsplit1 ("SKU-9 (Error: Timeout)" ++ String PyStr.TAB "u")
  = ["SKU-9"; "(Error: Timeout)" ++ String PyStr.TAB "u"].
Proof. reflexivity. Qed.

Example readlines_ex :
  PyStr.readlines ("a" ++ String PyStr.LF "" ++ String PyStr.LF "b")
  = ["a" ++ String PyStr.LF ""; String PyStr.LF ""; "b"].
Proof. reflexivity. Qed.

Example readlines_cr_ex :
  PyStr.readlines ("a" ++ String PyStr.CR (String PyStr.LF "b")
                   ++ String PyStr.CR "c" ++ String PyStr.CR "")
  = ["a" ++ String PyStr.LF ""; "b" ++ String PyStr.LF ""; "c" ++ String PyStr.LF ""].
Proof. reflexivity. Qed.

(** A URL with a carriage return is cut by the text-mode read. *)
Example load_cr_ex :
  load_previous ("A" ++ tab ++ "https://x/p" ++ String PyStr.CR "q" ++ nl)
  = [("A", "https://x/p"); ("q", "N/A")].
Proof. reflexivity. Qed.

Example of_nat_ex : PyStr.of_nat 0 = "0" /\ PyStr.of_nat 12 = "12".
Proof. split; reflexivity. Qed.

Example sorted_ex :
  sorted (fun s => s) ["b"; "B"; "a10"; "a9"; ""] = [""; "B"; "a10"; "a9"; "b"].
Proof. reflexivity. Qed.

Example sorted_stable_ex :
  sorted fst [("k", "1"); ("a", "2"); ("k", "3"); ("a", "4")]
  = [("a", "2"); ("a", "4"); ("k", "1"); ("k", "3")].
Proof. reflexivity. Qed.
(** ** The order on strings *)

Section StringOrder.

Lemma ascii_compare_refl (c : ascii) : Ascii.compare c c = Eq.
Proof. unfold Ascii.compare. apply N.compare_refl. Qed.

Lemma ascii_compare_lt_trans (a b c : ascii) :
  Ascii.compare a b = Lt -> Ascii.compare b c = Lt -> Ascii.compare a c = Lt.
Proof.
  unfold Ascii.compare. rewrite !N.compare_lt_iff. apply N.lt_trans.
Qed.

Lemma compare_refl (s : string) : String.compare s s = Eq.
Proof.
  induction s as [|c s IH]; simpl; [reflexivity|].
  now rewrite ascii_compare_refl.
Qed.

Lemma compare_lt_trans (a b c : string) :
  String.compare a b = Lt -> String.compare b c = Lt -> String.compare a c = Lt.
Proof.
  revert b c. induction a as [|x a IH]; intros [|y b] [|z c]; simpl;
    try discriminate; try reflexivity.
  destruct (Ascii.compare x y) eqn:Exy; try discriminate;
    destruct (Ascii.compare y z) eqn:Eyz; try discriminate; intros Hab Hbc.
  - apply Ascii.compare_eq_iff in Exy, Eyz. subst.
    rewrite ascii_compare_refl. eauto.
  - apply Ascii.compare_eq_iff in Exy. subst. now rewrite Eyz.
  - apply Ascii.compare_eq_iff in Eyz. subst. now rewrite Exy.
  - now rewrite (ascii_compare_lt_trans _ _ _ Exy Eyz).
Qed.

Lemma ltb_irrefl (s : string) : String.ltb s s = false.
Proof. unfold String.ltb. now rewrite compare_refl. Qed.

Lemma ltb_trans (a b c : string) :
  String.ltb a b = true -> String.ltb b c = true -> String.ltb a c = true.
Proof.
  unfold String.ltb. intros Hab Hbc.
  destruct (String.compare a b) eqn:Eab; try discriminate.
  destruct (String.compare b c) eqn:Ebc; try discriminate.
  now rewrite (compare_lt_trans _ _ _ Eab Ebc).
Qed.

Lemma ltb_asym (a b : string) :
  String.ltb a b = true -> String.ltb b a = false.
Proof.
  unfold String.ltb. rewrite (String.compare_antisym a b).
  destruct (String.compare b a); simpl; congruence.
Qed.

(** Two strings neither of which is below the other are the same. *)
Lemma ltb_none_eq (a b : string) :
  String.ltb a b = false -> String.ltb b a = false -> a = b.
Proof.
  unfold String.ltb. rewrite (String.compare_antisym a b).
  destruct (String.compare b a) eqn:E; simpl; try discriminate.
  intros _ _. symmetry. now apply String.compare_eq_iff.
Qed.

Lemma leb_ltb (a b : string) : String.leb a b = negb (String.ltb b a).
Proof.
  unfold String.leb, String.ltb. rewrite (String.compare_antisym a b).
  now destruct (String.compare b a).
Qed.

Lemma le_str_trans (a b c : string) : le_str a b -> le_str b c -> le_str a c.
Proof.
  unfold le_str. intros Hab Hbc.
  destruct (String.ltb c a) eqn:Eca; [|reflexivity].
  destruct (String.ltb a b) eqn:Eab.
  - pose proof (ltb_trans _ _ _ Eca Eab). congruence.
  - assert (a = b) by now apply ltb_none_eq. subst. congruence.
Qed.

Lemma le_str_antisym (a b : string) : le_str a b -> le_str b a -> a = b.
Proof. unfold le_str. intros. now apply ltb_none_eq. Qed.

Lemma le_str_leb (a b : string) : le_str a b <-> String.leb a b = true.
Proof.
  unfold le_str. rewrite leb_ltb. destruct (String.ltb b a); simpl; intuition congruence.
Qed.

End StringOrder.

(** ** The stable sort *)

Section SortFacts.

Context {A : Type} (key : A -> string).

Lemma insert_sorted_perm (x : A) (l : list A) :
  Permutation (insert_sorted key x l) (x :: l).
Proof.
  induction l as [|y r IH]; simpl; [reflexivity|].
  destruct (String.ltb (key y) (key x)); [|reflexivity].
  rewrite IH. apply perm_swap.
Qed.

Lemma sorted_perm (l : list A) : Permutation (sorted key l) l.
Proof.
  induction l as [|x l IH]; simpl; [reflexivity|].
  rewrite insert_sorted_perm. now constructor.
Qed.

Lemma sorted_length (l : list A) : List.length (sorted key l) = List.length l.
Proof. apply Permutation_length, sorted_perm. Qed.

Lemma sorted_In (l : list A) (x : A) : In x (sorted key l) <-> In x l.
Proof.
  split; apply Permutation_in; [|symmetry]; apply sorted_perm.
Qed.

Lemma insert_sorted_ordered (x : A) (l : list A) :
  StronglySorted (fun a b => le_str (key a) (key b)) l ->
  StronglySorted (fun a b => le_str (key a) (key b)) (insert_sorted key x l).
Proof.
  induction 1 as [|y r Hr IH Hy]; simpl.
  - constructor; constructor.
  - destruct (String.ltb (key y) (key x)) eqn:E.
    + constructor; [exact IH|].
      rewrite Forall_forall. intros z Hz.
      apply (Permutation_in _ (insert_sorted_perm x r)) in Hz.
      destruct Hz as [<-|Hz].
      * unfold le_str. now apply ltb_asym.
      * rewrite Forall_forall in Hy. now apply Hy.
    + constructor; [now constructor|].
      constructor; [exact E|].
      rewrite Forall_forall in *. intros z Hz.
      apply le_str_trans with (key y); [exact E|now apply Hy].
Qed.

Lemma sorted_ordered (l : list A) :
  StronglySorted (fun a b => le_str (key a) (key b)) (sorted key l).
Proof.
  induction l as [|x l IH]; simpl; [constructor|].
  now apply insert_sorted_ordered.
Qed.

End SortFacts.

(** A list of strings in ascending order is determined by its elements
    counted with multiplicity. *)
Lemma ordered_perm_unique (l l' : list string) :
  StronglySorted le_str l -> StronglySorted le_str l' ->
  Permutation l l' -> l = l'.
Proof.
  intros Hl. revert l'. induction Hl as [|x l Hl IH Hx]; intros l' Hl' HP.
  - apply Permutation_nil in HP. now subst.
  - destruct Hl' as [|y l' Hl' Hy].
    + symmetry in HP. apply Permutation_nil in HP. discriminate.
    + assert (x = y) as <-.
      { rewrite Forall_forall in Hx, Hy.
        assert (Hxin : In x (y :: l')) by (apply (Permutation_in _ HP); now left).
        assert (Hyin : In y (x :: l)) by
          (apply (Permutation_in _ (Permutation_sym HP)); now left).
        destruct Hxin as [->|Hxin]; [reflexivity|].
        destruct Hyin as [->|Hyin]; [reflexivity|].
        apply le_str_antisym; [now apply Hx|now apply Hy]. }
      f_equal. apply IH; [exact Hl'|].
      now apply Permutation_cons_inv in HP.
Qed.

(** The sorted keys do not depend on the order of the input. *)
Lemma sorted_keys_perm_invariant {A : Type} (key : A -> string) (l l' : list A) :
  Permutation l l' -> map key (sorted key l) = map key (sorted key l').
Proof.
  intros HP. apply ordered_perm_unique.
  - pose proof (sorted_ordered key l) as H. induction H; simpl; constructor; auto.
    now rewrite Forall_map.
  - pose proof (sorted_ordered key l') as H. induction H; simpl; constructor; auto.
    now rewrite Forall_map.
  - apply Permutation_map.
    rewrite (sorted_perm key l), (sorted_perm key l'). exact HP.
Qed.

Lemma map_id_eq (l : list string) : map (fun s => s) l = l.
Proof. induction l; simpl; congruence. Qed.

Lemma sorted_strings_perm_invariant (l l' : list string) :
  Permutation l l' -> sorted (fun s => s) l = sorted (fun s => s) l'.
Proof.
  intros HP. apply (sorted_keys_perm_invariant (fun s => s)) in HP.
  now rewrite !map_id_eq in HP.
Qed.

(** Without repeated elements the order is strict. *)
Lemma sorted_strings_strict (l : list string) :
  NoDup l -> StronglySorted (fun a b => String.ltb a b = true) (sorted (fun s => s) l).
Proof.
  intros Hnd.
  assert (Hnd' : NoDup (sorted (fun s => s) l)).
  { eapply Permutation_NoDup; [symmetry; apply sorted_perm|exact Hnd]. }
  pose proof (sorted_ordered (fun s => s) l) as Hs.
  induction Hs as [|x r Hr IH Hx]; [constructor|].
  inversion Hnd' as [|? ? Hnotin Hndr]; subst.
  constructor; [now apply IH|].
  rewrite Forall_forall in *. intros y Hy.
  destruct (String.ltb x y) eqn:E; [reflexivity|].
  exfalso. apply Hnotin.
  assert (x = y) by (apply ltb_none_eq; [exact E|now apply Hx]).
  now subst.
Qed.

(** ** Sets and dictionaries *)

Lemma mem_In (k : string) (s : PySet.t) : PySet.mem k s = true <-> In k s.
Proof.
  unfold PySet.mem. rewrite existsb_exists. split.
  - intros (x & Hx & E). apply String.eqb_eq in E. now subst.
  - intros H. exists k. split; [exact H|apply String.eqb_refl].
Qed.

Lemma mem_false_In (k : string) (s : PySet.t) : PySet.mem k s = false <-> ~ In k s.
Proof.
  rewrite <- mem_In. destruct (PySet.mem k s); intuition congruence.
Qed.

Lemma add_In (s : PySet.t) (k x : string) :
  In x (PySet.add s k) <-> In x s \/ x = k.
Proof.
  unfold PySet.add. destruct (PySet.mem k s) eqn:E.
  - apply mem_In in E. intuition (subst; auto).
  - rewrite in_app_iff. simpl. intuition.
Qed.

Lemma add_NoDup (s : PySet.t) (k : string) : NoDup s -> NoDup (PySet.add s k).
Proof.
  intros H. unfold PySet.add. destruct (PySet.mem k s) eqn:E; [exact H|].
  apply mem_false_In in E.
  apply NoDup_app; [exact H|repeat constructor; simpl; tauto|].
  intros a Ha [<-|[]]. now apply E.
Qed.

Lemma fold_add_In (l : list string) (s : PySet.t) (x : string) :
  In x (fold_left PySet.add l s) <-> In x s \/ In x l.
Proof.
  revert s. induction l as [|k l IH]; intros s; simpl; [tauto|].
  rewrite IH, add_In. intuition.
Qed.

Lemma fold_add_NoDup (l : list string) (s : PySet.t) :
  NoDup s -> NoDup (fold_left PySet.add l s).
Proof.
  revert s. induction l as [|k l IH]; intros s H; simpl; [exact H|].
  now apply IH, add_NoDup.
Qed.

Lemma of_list_In (l : list string) (x : string) : In x (PySet.of_list l) <-> In x l.
Proof. unfold PySet.of_list. rewrite fold_add_In. simpl. tauto. Qed.

Lemma of_list_NoDup (l : list string) : NoDup (PySet.of_list l).
Proof. apply fold_add_NoDup. constructor. Qed.

Lemma union_In (a b : PySet.t) (x : string) :
  In x (PySet.union a b) <-> In x a \/ In x b.
Proof. apply fold_add_In. Qed.

Lemma union_NoDup (a b : PySet.t) : NoDup a -> NoDup (PySet.union a b).
Proof. apply fold_add_NoDup. Qed.

Lemma lookup_set (d : PyDict.t) (k v k' : string) :
  PyDict.lookup (PyDict.set d k v) k'
  = if String.eqb k k' then Some v else PyDict.lookup d k'.
Proof.
  induction d as [|[k0 v0] d IH]; simpl.
  - reflexivity.
  - destruct (String.eqb k0 k) eqn:E0; simpl.
    + apply String.eqb_eq in E0. subst k0.
      now destruct (String.eqb k k').
    + destruct (String.eqb k0 k') eqn:E1; [|exact IH].
      apply String.eqb_eq in E1. subst k0.
      rewrite String.eqb_sym in E0. now rewrite E0.
Qed.

Lemma keys_In_lookup (d : PyDict.t) (k : string) :
  In k (PyDict.keys d) <-> PyDict.lookup d k <> None.
Proof.
  induction d as [|[k0 v0] d IH]; simpl; [tauto|].
  destruct (String.eqb k0 k) eqn:E.
  - apply String.eqb_eq in E. split; [discriminate|auto].
  - apply String.eqb_neq in E. rewrite <- IH. tauto.
Qed.

Lemma keys_set_In (d : PyDict.t) (k v x : string) :
  In x (PyDict.keys (PyDict.set d k v)) <-> In x (PyDict.keys d) \/ x = k.
Proof.
  rewrite !keys_In_lookup, lookup_set.
  destruct (String.eqb k x) eqn:E.
  - apply String.eqb_eq in E. split; [auto|discriminate].
  - apply String.eqb_neq in E. intuition congruence.
Qed.

Lemma set_absent (d : PyDict.t) (k v : string) :
  PyDict.lookup d k = None -> PyDict.set d k v = (d ++ [(k, v)])%list.
Proof.
  induction d as [|[k0 v0] d IH]; simpl; [reflexivity|].
  destruct (String.eqb k0 k); [discriminate|].
  intros H. now rewrite IH.
Qed.

Lemma set_present_len (d : PyDict.t) (k v : string) :
  PyDict.lookup d k <> None -> PyDict.len (PyDict.set d k v) = PyDict.len d.
Proof.
  unfold PyDict.len.
  induction d as [|[k0 v0] d IH]; simpl; [congruence|].
  destruct (String.eqb k0 k); simpl; [reflexivity|].
  intros H. now rewrite IH.
Qed.

Lemma keys_set_NoDup (d : PyDict.t) (k v : string) :
  NoDup (PyDict.keys d) -> NoDup (PyDict.keys (PyDict.set d k v)).
Proof.
  unfold PyDict.keys.
  induction d as [|[k0 v0] d IH]; simpl; intros H.
  - repeat constructor. simpl. tauto.
  - inversion H as [|? ? Hnotin Hnd]; subst.
    destruct (String.eqb k0 k) eqn:E; simpl.
    + now constructor.
    + constructor; [|now apply IH].
      intros Hin. apply (keys_set_In d k v k0) in Hin.
      apply String.eqb_neq in E. destruct Hin; [now apply Hnotin|congruence].
Qed.

(** Membership in the set built from the keys is presence in the
    dictionary. *)
Lemma mem_keys (d : PyDict.t) (k : string) :
  PySet.mem k (PySet.of_list (PyDict.keys d))
  = match PyDict.lookup d k with Some _ => true | None => false end.
Proof.
  destruct (PyDict.lookup d k) eqn:E.
  - apply mem_In, of_list_In, keys_In_lookup. congruence.
  - apply mem_false_In. rewrite of_list_In, keys_In_lookup. congruence.
Qed.

(** ** The classification (step 6) *)

Section ClassificationFacts.

Variable previous_oos_data : PyDict.t.
Variable st : CheckState.

(** The three tests of the loop body are presence in the two dictionaries
    and membership in the in-stock set. *)
Lemma classify_by_lookup (sku : string) :
  classify previous_oos_data st sku =
  let in_previous := present previous_oos_data sku in
  let in_current_oos := present (current_oos_dict (current_oos_products st)) sku in
  let in_current_instock := PySet.mem sku (current_instock_skus st) in
  if in_previous && in_current_instock then
    Some (RESTOCKED, PyDict.get previous_oos_data sku "N/A")
  else if in_previous && in_current_oos then
    Some (STILL_OOS, PyDict.get (current_oos_dict (current_oos_products st)) sku "N/A")
  else if negb in_previous && in_current_oos then
    Some (NEWLY_OOS, PyDict.get (current_oos_dict (current_oos_products st)) sku "N/A")
  else if in_previous && negb in_current_oos && negb in_current_instock then
    Some (ERROR_PREV_OOS, PyDict.get previous_oos_data sku "N/A")
  else None.
Proof.
  unfold classify, previous_oos_skus_set, current_oos_skus_set, present.
  now rewrite !mem_keys.
Qed.

Lemma analysis_fold_lines (l : list string) (acc : list string * Summary) :
  fst (fold_left (analyse_sku previous_oos_data st) l acc)
  = (fst acc ++ flat_map (status_lines_of previous_oos_data st) l)%list.
Proof.
  revert acc. induction l as [|x l IH]; intros acc; simpl.
  - now rewrite app_nil_r.
  - rewrite IH. unfold analyse_sku, status_lines_of.
    destruct (classify previous_oos_data st x) as [[s u]|]; simpl.
    + now rewrite <- app_assoc.
    + reflexivity.
Qed.

Lemma analysis_fold_summary (l : list string) (acc : list string * Summary) (s : Status) :
  summary_get (snd (fold_left (analyse_sku previous_oos_data st) l acc)) s
  = summary_get (snd acc) s
    + List.length (filter (has_status previous_oos_data st s) l).
Proof.
  revert acc. induction l as [|x l IH]; intros acc; simpl.
  - lia.
  - rewrite IH. unfold analyse_sku, has_status, outcome.
    destruct (classify previous_oos_data st x) as [[s' u]|]; simpl; [|reflexivity].
    destruct s, s'; simpl; lia.
Qed.

(** A SKU of [all_relevant_skus] always gets a line. *)
Lemma relevant_has_line (sku : string) :
  In sku (all_relevant_skus previous_oos_data (current_oos_products st)) ->
  no_line previous_oos_data st sku = false.
Proof.
  unfold all_relevant_skus, previous_oos_skus_set, current_oos_skus_set.
  rewrite union_In, <- !mem_In, !mem_keys.
  unfold no_line, outcome. rewrite classify_by_lookup. unfold present. simpl.
  destruct (PyDict.lookup previous_oos_data sku),
    (PyDict.lookup (current_oos_dict (current_oos_products st)) sku),
    (PySet.mem sku (current_instock_skus st)); simpl; intuition congruence.
Qed.

Lemma analysis_loop_lines :
  fst (analysis_loop previous_oos_data st)
  = flat_map (status_lines_of previous_oos_data st)
      (sorted (fun s => s)
         (all_relevant_skus previous_oos_data (current_oos_products st))).
Proof. unfold analysis_loop. now rewrite analysis_fold_lines. Qed.

End ClassificationFacts.

(** C2.  The loop body classifies every SKU as the precedence table of the
    specification does, first matching row first: previously out of stock
    and now in stock is RESTOCKED with the previous URL; else previously
    and currently out of stock is STILL_OOS with the current URL; else
    currently out of stock only is NEWLY_OOS with the current URL; else
    previously out of stock and now neither is STATUS_UNKNOWN with the
    previous URL; else there is no line.  The URL is the one stored in the
    snapshot, never the default, and the lines of the report are these
    classifications in the order of the sorted SKUs. *)
Theorem classification_follows_precedence_table :
  forall (previous_oos_data : PyDict.t) (st : CheckState),
    (forall sku,
        option_map (fun c => (fst c, Some (snd c))) (classify previous_oos_data st sku)
        = table_classify previous_oos_data
            (current_oos_dict (current_oos_products st))
            (current_instock_skus st) sku)
    /\ fst (analysis_loop previous_oos_data st)
       = flat_map (status_lines_of previous_oos_data st)
           (sorted (fun s => s)
              (all_relevant_skus previous_oos_data (current_oos_products st))).
Proof.
  intros prev st. split.
  - intros sku. rewrite classify_by_lookup.
    unfold table_classify, present, PyDict.get. simpl.
    destruct (PyDict.lookup prev sku),
      (PyDict.lookup (current_oos_dict (current_oos_products st)) sku),
      (PySet.mem sku (current_instock_skus st)); reflexivity.
  - apply analysis_loop_lines.
Qed.

Lemma filter_length_perm {A : Type} (f : A -> bool) (l l' : list A) :
  Permutation l l' -> List.length (filter f l) = List.length (filter f l').
Proof.
  induction 1 as [|x l l' _ IH|x y l|l l' l'' _ IH1 _ IH2]; simpl.
  - reflexivity.
  - destruct (f x); simpl; now rewrite IH.
  - destruct (f x), (f y); reflexivity.
  - now rewrite IH1.
Qed.

Lemma outcome_partition (previous_oos_data : PyDict.t) (st : CheckState)
    (l : list string) :
  List.length (filter (has_status previous_oos_data st RESTOCKED) l)
  + List.length (filter (has_status previous_oos_data st STILL_OOS) l)
  + List.length (filter (has_status previous_oos_data st NEWLY_OOS) l)
  + List.length (filter (has_status previous_oos_data st ERROR_PREV_OOS) l)
  + List.length (filter (no_line previous_oos_data st) l)
  = List.length l.
Proof.
  induction l as [|x l IH]; [reflexivity|].
  cbn [filter].
  destruct (has_status previous_oos_data st RESTOCKED x) eqn:E1,
    (has_status previous_oos_data st STILL_OOS x) eqn:E2,
    (has_status previous_oos_data st NEWLY_OOS x) eqn:E3,
    (has_status previous_oos_data st ERROR_PREV_OOS x) eqn:E4,
    (no_line previous_oos_data st x) eqn:E5;
    unfold has_status, no_line in E1, E2, E3, E4, E5;
    destruct (outcome previous_oos_data st x) as [[]|];
    simpl in E1, E2, E3, E4, E5; try discriminate;
    cbn [List.length]; lia.
Qed.

(** C3.  The SKUs of [all_relevant_skus] are pairwise different; each SKU
    has exactly one of the five outcomes RESTOCKED, STILL_OOS, NEWLY_OOS,
    STATUS_UNKNOWN, no line; each summary count is the number of relevant
    SKUs with that outcome; and the four counts add up to the number of
    relevant SKUs minus the number of those without a line. *)
Theorem classification_exhaustive_exclusive :
  forall (previous_oos_data : PyDict.t) (st : CheckState),
    let skus := all_relevant_skus previous_oos_data (current_oos_products st) in
    let summary := snd (analysis_loop previous_oos_data st) in
    NoDup skus
    /\ (forall sku, exists! o, In o outcomes /\ outcome previous_oos_data st sku = o)
    /\ (forall s, summary_get summary s
                  = List.length (filter (has_status previous_oos_data st s) skus))
    /\ n_RESTOCKED summary + n_STILL_OOS summary + n_NEWLY_OOS summary
       + n_ERROR_PREV_OOS summary
       = List.length skus - List.length (filter (no_line previous_oos_data st) skus).
Proof.
  intros prev st skus summary.
  assert (Hcount : forall s, summary_get summary s
                    = List.length (filter (has_status prev st s) skus)).
  { intros s. unfold summary, analysis_loop. rewrite analysis_fold_summary.
    fold skus.
    rewrite (filter_length_perm _ _ _ (sorted_perm (fun x => x) skus)).
    destruct s; reflexivity. }
  split; [|split; [|split]].
  - apply union_NoDup, of_list_NoDup.
  - intros sku. exists (outcome prev st sku). split.
    + split; [|reflexivity].
      unfold outcomes. destruct (outcome prev st sku) as [[]|]; simpl; tauto.
    + intros o [_ H]. exact H.
  - exact Hcount.
  - pose proof (outcome_partition prev st skus) as Hp.
    pose proof (Hcount RESTOCKED) as H1. pose proof (Hcount STILL_OOS) as H2.
    pose proof (Hcount NEWLY_OOS) as H3. pose proof (Hcount ERROR_PREV_OOS) as H4.
    simpl in H1, H2, H3, H4. lia.
Qed.

(** ** Determinism and order of the report *)

Lemma fold_left_pointwise {A B : Type} (f g : A -> B -> A) (l : list B) (a : A) :
  (forall a b, f a b = g a b) -> fold_left f l a = fold_left g l a.
Proof.
  intros H. revert a. induction l as [|b l IH]; intros a; simpl; [reflexivity|].
  now rewrite H, IH.
Qed.

Section SameInputs.

Variables previous_oos_data previous_oos_data' : PyDict.t.
Variables st st' : CheckState.

Hypothesis same_previous : same_map previous_oos_data previous_oos_data'.
Hypothesis same_instock :
  same_set (current_instock_skus st) (current_instock_skus st').
Hypothesis same_confirmed :
  same_map (current_oos_dict (current_oos_products st))
           (current_oos_dict (current_oos_products st')).

Lemma classify_same (sku : string) :
  classify previous_oos_data st sku = classify previous_oos_data' st' sku.
Proof.
  rewrite !classify_by_lookup. unfold present, PyDict.get.
  now rewrite (same_previous sku), (same_instock sku), (same_confirmed sku).
Qed.

Lemma all_relevant_same :
  Permutation (all_relevant_skus previous_oos_data (current_oos_products st))
              (all_relevant_skus previous_oos_data' (current_oos_products st')).
Proof.
  apply NoDup_Permutation; try (apply union_NoDup, of_list_NoDup).
  intros x. unfold all_relevant_skus, previous_oos_skus_set, current_oos_skus_set.
  rewrite !union_In, !of_list_In, !keys_In_lookup.
  now rewrite (same_previous x), (same_confirmed x).
Qed.

Lemma analysis_loop_same :
  analysis_loop previous_oos_data st = analysis_loop previous_oos_data' st'.
Proof.
  unfold analysis_loop.
  rewrite (sorted_strings_perm_invariant _ _ all_relevant_same).
  apply fold_left_pointwise. intros acc sku. unfold analyse_sku.
  now rewrite classify_same.
Qed.

End SameInputs.

(** ** The snapshot file (step 7) *)

Lemma append_assoc (a b c : string) : (a ++ b) ++ c = a ++ (b ++ c).
Proof. induction a as [|x a IH]; simpl; congruence. Qed.

Lemma append_nil_r (a : string) : a ++ "" = a.
Proof. induction a as [|x a IH]; simpl; congruence. Qed.

Lemma has_char_append (c : ascii) (a b : string) :
  has_char c (a ++ b) = has_char c a || has_char c b.
Proof.
  induction a as [|x a IH]; simpl; [reflexivity|].
  now rewrite IH, orb_assoc.
Qed.

(** A text that starts with a line without line feed, closed by one. *)
Lemma split_lines_first_line (l rest : string) :
  has_char PyStr.LF l = false ->
  PyStr.split_lines (l ++ String PyStr.LF rest)
  = (l ++ String PyStr.LF "") :: PyStr.split_lines rest.
Proof.
  induction l as [|c l IH]; simpl.
  - reflexivity.
  - intros H. apply orb_false_iff in H. destruct H as [Hc Hl].
    rewrite Hc, (IH Hl). reflexivity.
Qed.

(** A text without carriage return is read as it is. *)
Lemma translate_without_cr (s : string) :
  has_char PyStr.CR s = false -> PyStr.universal_newlines s = s.
Proof.
  unfold PyStr.universal_newlines.
  induction s as [|c s IH]; [reflexivity|].
  cbn [has_char PyStr.translate_newlines]. intros H.
  apply orb_false_iff in H. destruct H as [Hc Hs].
  rewrite Hc, (IH Hs). destruct (Ascii.eqb c PyStr.LF) eqn:E; [|reflexivity].
  apply Ascii.eqb_eq in E. now subst.
Qed.

Lemma readlines_without_cr (s : string) :
  has_char PyStr.CR s = false -> PyStr.readlines s = PyStr.split_lines s.
Proof. intros H. unfold PyStr.readlines. now rewrite translate_without_cr. Qed.

Lemma snapshot_line_shape (item : Product) :
  snapshot_line item
  = (sku item ++ String PyStr.TAB (url item)) ++ String PyStr.LF "".
Proof.
  unfold snapshot_line. rewrite append_assoc. reflexivity.
Qed.

Lemma split_lines_snapshot (items : list Product) :
  Forall single_line items ->
  PyStr.split_lines (fold_right String.append "" (map snapshot_line items))
  = map snapshot_line items.
Proof.
  induction 1 as [|item items [[Hs _] [Hu _]] _ IH]; [reflexivity|].
  cbn [map fold_right].
  rewrite (snapshot_line_shape item) at 1.
  rewrite append_assoc. cbn [String.append].
  rewrite split_lines_first_line.
  - now rewrite IH, snapshot_line_shape.
  - change (String PyStr.TAB (url item)) with (String PyStr.TAB "" ++ url item).
    rewrite !has_char_append, Hs, Hu. reflexivity.
Qed.

Lemma snapshot_lines_without_cr (items : list Product) :
  Forall single_line items ->
  has_char PyStr.CR (fold_right String.append "" (map snapshot_line items)) = false.
Proof.
  induction 1 as [|item items [[_ Hs] [_ Hu]] _ IH]; [reflexivity|].
  cbn [map fold_right]. rewrite has_char_append, IH, orb_false_r.
  unfold snapshot_line.
  change (String PyStr.TAB (url item ++ String PyStr.LF ""))
    with (String PyStr.TAB "" ++ (url item ++ String PyStr.LF "")).
  rewrite !has_char_append, Hs, Hu. reflexivity.
Qed.

(** The lines written for records without line feed or carriage return
    are read back one per record. *)
Lemma readlines_snapshot (items : list Product) :
  Forall single_line items ->
  PyStr.readlines (fold_right String.append "" (map snapshot_line items))
  = map snapshot_line items.
Proof.
  intros H. rewrite readlines_without_cr by now apply snapshot_lines_without_cr.
  now apply split_lines_snapshot.
Qed.

(** C7.  The text written to the current out-of-stock file is one line
    [SKU, tab, URL, line feed] per record of [current_oos_products], no
    record lost or added, in ascending order of the SKU text, and the
    column of SKUs is the same for every order in which the records were
    appended. *)
Theorem snapshot_sorted_by_sku :
  forall (w : World) (products : list Product),
    let written := sorted sku products in
    files (write_current_oos w products) CURRENT_OOS_FILE_PATH
    = Some (fold_right String.append ""
              (map (fun item => sku item ++ tab ++ url item ++ nl) written))
    /\ Permutation written products
    /\ StronglySorted (fun a b => String.leb (sku a) (sku b) = true) written
    /\ (forall products', Permutation products products' ->
                          map sku (sorted sku products') = map sku written).
Proof.
  intros w products written. split; [|split; [|split]].
  - reflexivity.
  - apply sorted_perm.
  - pose proof (sorted_ordered sku products) as H. fold written in H.
    induction H as [|x l _ IH Hx]; constructor; [exact IH|].
    rewrite Forall_forall in *. intros y Hy. now apply le_str_leb, Hx.
  - intros products' HP. symmetry. now apply sorted_keys_perm_invariant.
Qed.

Lemma snapshot_sorted_by_sku_witness :
  files (write_current_oos (mkWorld (fun _ => None) []) sample_products)
        CURRENT_OOS_FILE_PATH
  = Some ("A-10" ++ tab ++ "u1" ++ nl ++ "B" ++ tab ++ "u2b" ++ nl
          ++ "B" ++ tab ++ "u2c" ++ nl
          ++ "SKU-9 (Error: Timeout)" ++ tab ++ "s9" ++ nl)
  /\ map sku (sorted sku (rev sample_products))
     = [ "A-10"; "B"; "B"; "SKU-9 (Error: Timeout)" ].
Proof.
  pose proof (snapshot_sorted_by_sku (mkWorld (fun _ => None) []) sample_products)
    as (Htext & _ & _ & Horder).
  split.
  - rewrite Htext. reflexivity.
  - apply (Horder (rev sample_products)). apply Permutation_rev.
Defined.

(** ** Missing files (steps 1 and 7) *)

(** C8.  When the previous out-of-stock file does not exist, step 1 raises
    nothing and leaves [previous_oos_data] empty, and the run goes on: with
    a SKU file present it finishes, its report being the analysis against
    the empty previous snapshot. *)
Theorem missing_previous_is_first_run :
  forall (w : World),
    files w PREVIOUS_OOS_FILE_PATH = None ->
    read_previous w = Ok ([], w)
    /\ forall run_timestamp prober content,
        files w SKU_FILE_PATH = Some content ->
        exists w',
          main run_timestamp prober w
          = Ok (Finished w'
                  (analysis_report_lines []
                     (checking_loop (probes_of prober (PyStr.readlines content)))
                     run_timestamp)).
Proof.
  intros w Hprev.
  assert (Hread : read_previous w = Ok ([], w)).
  { unfold read_previous, open_read. now rewrite Hprev. }
  split; [exact Hread|].
  intros ts prober content Hsku.
  unfold main. rewrite Hread. cbn [bind].
  unfold open_read. rewrite Hsku.
  unfold rotate_files, os_replace. cbn [files].
  destruct (files w CURRENT_OOS_FILE_PATH); cbn [bind]; eexists; reflexivity.
Qed.

Lemma missing_previous_is_first_run_witness :
  read_previous (mkWorld first_run_files []) = Ok ([], mkWorld first_run_files [])
  /\ exists w',
      main "2024-01-01 00:00:00" sample_prober (mkWorld first_run_files [])
      = Ok (Finished w'
              [ "Analysis Report - 2024-01-01 00:00:00";
                "==============================";
                "[!] NEWLY OOS  : B (Link: u_B)";
                "==============================";
                "Summary:";
                "  Restocked:        0";
                "  Still OutOfStock: 0";
                "  Newly OutOfStock: 1";
                "  Total Currently OOS (incl errors): 1" ]).
Proof.
  destruct (missing_previous_is_first_run (mkWorld first_run_files []) eq_refl)
    as [Hread Hrun].
  split; [exact Hread|].
  exact (Hrun "2024-01-01 00:00:00" sample_prober ("B" ++ nl ++ "A" ++ nl) eq_refl).
Defined.

(** C9.  Rotating when there is no current out-of-stock file raises
    nothing and changes nothing.  A run with a SKU file finishes either
    way; the previous file ends up with the content the current file had
    before the run if there was one and is left as it was otherwise; the
    current file ends up with the new snapshot; and the rotation, when
    there is one, comes immediately before the write of the new
    snapshot. *)
Theorem rotation_before_write :
  forall (w : World),
    (files w CURRENT_OOS_FILE_PATH = None -> rotate_files w = Ok w)
    /\ forall run_timestamp prober content,
        files w SKU_FILE_PATH = Some content ->
        let st := checking_loop (probes_of prober (PyStr.readlines content)) in
        exists w' report,
          main run_timestamp prober w = Ok (Finished w' report)
          /\ files w' CURRENT_OOS_FILE_PATH
             = Some (snapshot_text (current_oos_products st))
          /\ files w' PREVIOUS_OOS_FILE_PATH
             = match files w CURRENT_OOS_FILE_PATH with
               | Some old => Some old
               | None => files w PREVIOUS_OOS_FILE_PATH
               end
          /\ events w'
             = app (events w)
                   (expected_events (files w)
                      (snapshot_text (current_oos_products st))
                      (report_text report)).
Proof.
  intros w. split.
  - intros Hcur. unfold rotate_files, os_replace. now rewrite Hcur.
  - intros ts prober content Hsku st.
    unfold main, read_previous, open_read, rotate_files, os_replace,
      expected_events.
    destruct (files w PREVIOUS_OOS_FILE_PATH) as [prev|] eqn:Hprev;
      cbn [bind files events]; rewrite Hsku; cbn [files events];
      destruct (files w CURRENT_OOS_FILE_PATH) as [old|] eqn:Hcur;
      cbn [bind]; do 2 eexists; (split; [reflexivity|]);
      cbn [write_change_report WRITE_CHANGE_REPORT_FILE write_current_oos
             open_write files events files_set Path_eqb];
      rewrite ?Hprev, <- ?app_assoc; repeat split; reflexivity.
Qed.

Lemma rotation_before_write_witness :
  rotate_files (mkWorld first_run_files []) = Ok (mkWorld first_run_files [])
  /\ exists w' report,
      main "2024-01-01 00:00:00" sample_prober (mkWorld later_run_files [])
      = Ok (Finished w' report)
      /\ files w' CURRENT_OOS_FILE_PATH = Some ("B" ++ tab ++ "u_B" ++ nl)
      /\ files w' PREVIOUS_OOS_FILE_PATH = Some ("A" ++ tab ++ "u1" ++ nl)
      /\ events w'
         = [ EvRead PREVIOUS_OOS_FILE_PATH; EvRead SKU_FILE_PATH;
             EvReplace CURRENT_OOS_FILE_PATH PREVIOUS_OOS_FILE_PATH;
             EvWrite CURRENT_OOS_FILE_PATH ("B" ++ tab ++ "u_B" ++ nl);
             EvWrite CHANGE_REPORT_FILE_PATH (report_text report) ].
Proof.
  split.
  - exact (proj1 (rotation_before_write (mkWorld first_run_files [])) eq_refl).
  - exact (proj2 (rotation_before_write (mkWorld later_run_files []))
             "2024-01-01 00:00:00" sample_prober ("B" ++ nl ++ "A" ++ nl) eq_refl).
Defined.

(** ** The checking loop (step 3) *)

Lemma probed_cons (line : string) (o : ProbeOutcome)
    (probes : list (string * ProbeOutcome)) :
  probed ((line, o) :: probes)
  = if String.eqb (PyStr.strip line) "" then probed probes
    else (line, o) :: probed probes.
Proof.
  unfold probed. cbn [filter]. unfold raw_sku at 1. cbn [fst].
  now destruct (String.eqb (PyStr.strip line) "").
Qed.

Lemma check_fold_products (probes : list (string * ProbeOutcome)) (st : CheckState) :
  current_oos_products (fold_left check_sku probes st)
  = (current_oos_products st ++ flat_map product_of (probed probes))%list.
Proof.
  revert st. induction probes as [|[line o] probes IH]; intros st.
  - simpl. now rewrite app_nil_r.
  - cbn [fold_left]. rewrite IH, probed_cons. unfold check_sku.
    destruct (String.eqb (PyStr.strip line) "") eqn:E; [reflexivity|].
    cbn [flat_map]. unfold product_of at 2, raw_sku. cbn [fst snd].
    destruct o; cbn [current_oos_products]; rewrite <- ?app_assoc; reflexivity.
Qed.

Lemma checking_loop_products (probes : list (string * ProbeOutcome)) :
  current_oos_products (checking_loop probes) = flat_map product_of (probed probes).
Proof. unfold checking_loop. now rewrite check_fold_products. Qed.

Lemma check_fold_instock (probes : list (string * ProbeOutcome)) (st : CheckState)
    (x : string) :
  In x (current_instock_skus (fold_left check_sku probes st))
  <-> In x (current_instock_skus st)
      \/ In x (map raw_sku (filter is_in_stock (probed probes))).
Proof.
  revert st. induction probes as [|[line o] probes IH]; intros st.
  - simpl. tauto.
  - cbn [fold_left]. rewrite IH, probed_cons. unfold check_sku.
    destruct (String.eqb (PyStr.strip line) "") eqn:E; [reflexivity|].
    cbn [filter]. unfold is_in_stock at 2. cbn [snd].
    destruct o; cbn [current_instock_skus map In]; unfold raw_sku at 2;
      cbn [fst]; rewrite ?add_In; intuition congruence.
Qed.

Lemma checking_loop_instock (probes : list (string * ProbeOutcome)) (x : string) :
  In x (current_instock_skus (checking_loop probes))
  <-> In x (map raw_sku (filter is_in_stock (probed probes))).
Proof.
  unfold checking_loop. rewrite check_fold_instock. simpl. tauto.
Qed.

Lemma endswith_paren_append (a b : string) :
  b <> "" -> PyStr.endswith_paren (a ++ b) = PyStr.endswith_paren b.
Proof.
  intros Hb. induction a as [|c a IH]; [reflexivity|].
  cbn [String.append PyStr.endswith_paren]. rewrite IH.
  destruct (a ++ b) eqn:E; [|reflexivity].
  destruct a; simpl in E; congruence.
Qed.

(** The SKU text recorded for a probe that raised ends with [")"]. *)
Lemma error_sku_endswith_paren (raw exc_name : string) :
  PyStr.endswith_paren (error_sku raw exc_name) = true.
Proof.
  unfold error_sku.
  rewrite endswith_paren_append by discriminate.
  change (" (Error: " ++ exc_name ++ ")") with ((" (Error: " ++ exc_name) ++ ")").
  now rewrite endswith_paren_append by discriminate.
Qed.

(** ** The confirmed out-of-stock dictionary *)

Lemma current_oos_dict_fold (products : list Product) :
  current_oos_dict products = fold_left oos_dict_step products [].
Proof. reflexivity. Qed.

Lemma oos_fold_keys (items : list Product) (d : PyDict.t) (k : string) :
  In k (PyDict.keys (fold_left oos_dict_step items d))
  <-> In k (PyDict.keys d)
      \/ exists item, In item items /\ sku item = k
                      /\ PyStr.endswith_paren k = false.
Proof.
  revert d. induction items as [|item items IH]; intros d; cbn [fold_left].
  - split; [auto|]. intros [H|(item & [] & _)]. exact H.
  - rewrite IH. unfold oos_dict_step.
    destruct (PyStr.endswith_paren (sku item)) eqn:E.
    + split.
      * intros [H|(it & Hin & Hk & He)]; [now left|].
        right. exists it. simpl. auto.
      * intros [H|(it & [<-|Hin] & Hk & He)]; [now left|congruence|].
        right. now exists it.
    + rewrite keys_set_In. split.
      * intros [[H | ->]|(it & Hin & Hk & He)]; [now left| |].
        -- right. exists item. simpl. auto.
        -- right. exists it. simpl. auto.
      * intros [H|(it & [<-|Hin] & Hk & He)]; [auto|auto|].
        right. now exists it.
Qed.

(** The keys of [current_oos_dict] are the recorded SKU texts that do not
    end with [")"]. *)
Lemma current_oos_dict_keys (products : list Product) (k : string) :
  In k (PyDict.keys (current_oos_dict products))
  <-> (exists item, In item products /\ sku item = k)
      /\ PyStr.endswith_paren k = false.
Proof.
  rewrite current_oos_dict_fold, oos_fold_keys. simpl. split.
  - intros [[]|(item & Hin & Hk & He)]. split; [now exists item|exact He].
  - intros [(item & Hin & Hk) He]. right. now exists item.
Qed.

Lemma product_of_length (L : list (string * ProbeOutcome)) :
  List.length (flat_map product_of L)
  = List.length (filter is_out_of_stock L) + List.length (filter is_error L).
Proof.
  induction L as [|[line o] L IH]; [reflexivity|].
  cbn [flat_map filter]. rewrite length_app, IH.
  unfold product_of at 1, is_out_of_stock at 2, is_error at 2. cbn [snd].
  destruct o; cbn [List.length]; lia.
Qed.

(** With pairwise different SKUs none of which, when found out of stock,
    ends with [")"], every out-of-stock probe adds a key. *)
Lemma oos_fold_len (L : list (string * ProbeOutcome)) (d : PyDict.t) :
  NoDup (map raw_sku L) ->
  (forall p, In p L -> is_out_of_stock p = true ->
             PyStr.endswith_paren (raw_sku p) = false) ->
  (forall p, In p L -> ~ In (raw_sku p) (PyDict.keys d)) ->
  PyDict.len (fold_left oos_dict_step (flat_map product_of L) d)
  = PyDict.len d + List.length (filter is_out_of_stock L).
Proof.
  revert d. induction L as [|[line o] L IH]; intros d Hnd Hparen Hfresh.
  - simpl. lia.
  - cbn [map] in Hnd. inversion Hnd as [|? ? Hnotin Hnd']; subst.
    cbn [flat_map filter]. rewrite fold_left_app.
    assert (Hparen' : forall p, In p L -> is_out_of_stock p = true ->
                                PyStr.endswith_paren (raw_sku p) = false).
    { intros p Hp. apply Hparen. now right. }
    assert (Hfresh' : forall p, In p L -> ~ In (raw_sku p) (PyDict.keys d)).
    { intros p Hp. apply Hfresh. now right. }
    destruct o as [|u|e u].
    + change (is_out_of_stock (line, IN_STOCK)) with false.
      change (product_of (line, IN_STOCK)) with (@nil Product).
      cbn [fold_left]. now apply IH.
    + change (is_out_of_stock (line, OUT_OF_STOCK u)) with true.
      change (product_of (line, OUT_OF_STOCK u))
        with [mkProduct (raw_sku (line, OUT_OF_STOCK u)) u].
      cbn [fold_left List.length]. unfold oos_dict_step at 2. cbn [sku url].
      rewrite (Hparen (line, OUT_OF_STOCK u)) by (simpl; auto).
      rewrite IH; auto.
      * rewrite set_absent.
        -- unfold PyDict.len. rewrite length_app. cbn [List.length]. lia.
        -- specialize (Hfresh (line, OUT_OF_STOCK u) (or_introl eq_refl)).
           rewrite keys_In_lookup in Hfresh.
           destruct (PyDict.lookup d (raw_sku (line, OUT_OF_STOCK u)));
             [exfalso; apply Hfresh; discriminate|reflexivity].
      * intros p Hp. rewrite keys_set_In. intros [H|H].
        -- revert H. now apply Hfresh'.
        -- apply Hnotin. rewrite <- H. now apply in_map.
    + change (is_out_of_stock (line, ERROR e u)) with false.
      change (product_of (line, ERROR e u))
        with [mkProduct (error_sku (raw_sku (line, ERROR e u)) e) u].
      cbn [fold_left]. unfold oos_dict_step at 2. cbn [sku].
      rewrite error_sku_endswith_paren. now apply IH.
Qed.

(** ** The total of the summary *)

Lemma last_summary_line (st : CheckState) (s : Summary) :
  last (summary_lines st s) "" = total_line (total_currently_oos st).
Proof.
  unfold summary_lines.
  destruct (Nat.ltb 0 (n_ERROR_PREV_OOS s)); reflexivity.
Qed.

Lemma last_app_nonempty {A : Type} (l l' : list A) (d : A) :
  l' <> [] -> last (l ++ l')%list d = last l' d.
Proof.
  intros H. induction l as [|x l IH]; [reflexivity|].
  cbn [app]. destruct (l ++ l')%list eqn:E.
  - apply app_eq_nil in E. tauto.
  - rewrite <- IH. reflexivity.
Qed.

Lemma summary_lines_nonempty (st : CheckState) (s : Summary) :
  summary_lines st s <> [].
Proof. unfold summary_lines. discriminate. Qed.

(** C6 as worded fails when a SKU is on two lines of the SKU file: the
    list has two entries, the dictionary one key, and nothing raised. *)
Lemma total_counts_repeated_lines :
  ~ (forall probes : list (string * ProbeOutcome),
        total_currently_oos (checking_loop probes)
        = PyDict.len (current_oos_dict (current_oos_products (checking_loop probes)))
          + List.length (errored_skus probes)).
Proof.
  intros H. specialize (H repeated_probes). vm_compute in H. discriminate.
Qed.

(** The last line of a report that has a summary. *)
Lemma report_last_line (previous_oos_data : PyDict.t) (st : CheckState)
    (run_timestamp : string) :
  all_relevant_skus previous_oos_data (current_oos_products st) <> [] ->
  last (analysis_report_lines previous_oos_data st run_timestamp) ""
  = total_line (total_currently_oos st).
Proof.
  intros Hne. unfold analysis_report_lines.
  destruct (all_relevant_skus previous_oos_data (current_oos_products st));
    [congruence|].
  rewrite last_app_nonempty.
  - rewrite last_app_nonempty by apply summary_lines_nonempty.
    apply last_summary_line.
  - intros E. apply app_eq_nil in E. destruct E as [_ E].
    now apply summary_lines_nonempty in E.
Qed.

Lemma errored_skus_NoDup (probes : list (string * ProbeOutcome)) :
  NoDup (map raw_sku (probed probes)) -> NoDup (errored_skus probes).
Proof.
  unfold errored_skus. induction (probed probes) as [|p L IH]; intros Hnd;
    [constructor|].
  cbn [map] in Hnd. inversion Hnd as [|? ? Hnotin Hnd']; subst.
  cbn [filter]. destruct (is_error p); cbn [map]; [|now apply IH].
  constructor; [|now apply IH].
  intros Hin. apply Hnotin. apply in_map_iff in Hin.
  destruct Hin as (q & Hq & Hin). apply filter_In in Hin.
  rewrite <- Hq. apply in_map. tauto.
Qed.

(** C6, amended.  The total is the number of entries of
    [current_oos_products], one for each probed line whose probe found no
    stock or raised, and whenever the report has a summary its last line
    shows that number.  When the SKUs probed are pairwise different and
    none of those found out of stock ends with [")"], that number is the
    number of keys of the confirmed out-of-stock dictionary plus the number
    of SKUs whose probe raised. *)
Theorem total_currently_oos_count :
  forall (probes : list (string * ProbeOutcome)),
    let st := checking_loop probes in
    total_currently_oos st
    = List.length (filter is_out_of_stock (probed probes))
      + List.length (filter is_error (probed probes))
    /\ (forall previous_oos_data run_timestamp,
           all_relevant_skus previous_oos_data (current_oos_products st) <> [] ->
           last (analysis_report_lines previous_oos_data st run_timestamp) ""
           = total_line (total_currently_oos st))
    /\ (NoDup (map raw_sku (probed probes)) ->
        (forall p, In p (probed probes) -> is_out_of_stock p = true ->
                   PyStr.endswith_paren (raw_sku p) = false) ->
        total_currently_oos st
        = PyDict.len (current_oos_dict (current_oos_products st))
          + List.length (errored_skus probes)
        /\ NoDup (errored_skus probes)).
Proof.
  intros probes st. split; [|split].
  - unfold total_currently_oos, st. rewrite checking_loop_products.
    apply product_of_length.
  - intros prev ts. apply report_last_line.
  - intros Hnd Hparen. split; [|now apply errored_skus_NoDup].
    unfold total_currently_oos, st.
    rewrite checking_loop_products, current_oos_dict_fold, product_of_length.
    rewrite oos_fold_len; auto.
    unfold errored_skus. rewrite length_map. reflexivity.
Qed.

Lemma total_currently_oos_count_witness :
  total_currently_oos (checking_loop mixed_probes) = 3
  /\ PyDict.len (current_oos_dict (current_oos_products (checking_loop mixed_probes))) = 1
  /\ errored_skus mixed_probes = ["C"; "D"]
  /\ last (analysis_report_lines sample_previous (checking_loop mixed_probes)
             "2024-01-01 00:00:00") ""
     = "  Total Currently OOS (incl errors): 3"
  /\ last (analysis_report_lines sample_previous (checking_loop repeated_probes)
             "2024-01-01 00:00:00") ""
     = "  Total Currently OOS (incl errors): 2".
Proof.
  assert (Hnd : NoDup (map raw_sku (probed mixed_probes))).
  { vm_compute. repeat constructor; simpl; intuition discriminate. }
  assert (Hparen : forall p, In p (probed mixed_probes) ->
                             is_out_of_stock p = true ->
                             PyStr.endswith_paren (raw_sku p) = false).
  { intros p Hp.
    change (probed mixed_probes) with mixed_probes in Hp.
    unfold mixed_probes in Hp. simpl in Hp.
    destruct Hp as [<-|[<-|[<-|[<-|[]]]]]; intros H; try discriminate H;
      reflexivity. }
  destruct (total_currently_oos_count mixed_probes) as (Hcount & Hlast & Hsum).
  destruct (Hsum Hnd Hparen) as [Ht _].
  destruct (total_currently_oos_count repeated_probes) as (_ & Hlast' & _).
  split; [rewrite Hcount; reflexivity|].
  split; [reflexivity|]. split; [reflexivity|]. split.
  - rewrite (Hlast sample_previous "2024-01-01 00:00:00") by discriminate.
    rewrite Ht. reflexivity.
  - rewrite (Hlast' sample_previous "2024-01-01 00:00:00") by discriminate.
    reflexivity.
Defined.

(** ** Determinism of the whole report *)

Lemma current_oos_dict_NoDup (products : list Product) :
  NoDup (PyDict.keys (current_oos_dict products)).
Proof.
  rewrite current_oos_dict_fold.
  assert (H : forall d, NoDup (PyDict.keys d) ->
                        NoDup (PyDict.keys (fold_left oos_dict_step products d))).
  { induction products as [|item items IH]; intros d Hd; [exact Hd|].
    cbn [fold_left]. apply IH. unfold oos_dict_step.
    destruct (PyStr.endswith_paren (sku item)); [exact Hd|].
    now apply keys_set_NoDup. }
  apply H. constructor.
Qed.

(** Two dictionaries with the same content have the same number of
    keys. *)
Lemma same_map_len (d d' : PyDict.t) :
  NoDup (PyDict.keys d) -> NoDup (PyDict.keys d') -> same_map d d' ->
  PyDict.len d = PyDict.len d'.
Proof.
  intros Hd Hd' Hsame.
  assert (HP : Permutation (PyDict.keys d) (PyDict.keys d')).
  { apply NoDup_Permutation; auto. intros k.
    now rewrite !keys_In_lookup, (Hsame k). }
  apply Permutation_length in HP. unfold PyDict.keys in HP.
  now rewrite !length_map in HP.
Qed.

(** The total of a run whose SKUs are pairwise different, none of those
    found out of stock ending with [")"]. *)
Lemma total_as_sum (probes : list (string * ProbeOutcome)) :
  NoDup (map raw_sku (probed probes)) ->
  (forall p, In p (probed probes) -> is_out_of_stock p = true ->
             PyStr.endswith_paren (raw_sku p) = false) ->
  total_currently_oos (checking_loop probes)
  = PyDict.len (current_oos_dict (current_oos_products (checking_loop probes)))
    + List.length (errored_skus probes).
Proof.
  intros Hnd Hparen. unfold total_currently_oos.
  rewrite checking_loop_products, current_oos_dict_fold, product_of_length.
  rewrite oos_fold_len; auto.
  unfold errored_skus. rewrite length_map. reflexivity.
Qed.

Lemma report_tail_same (previous_oos_data previous_oos_data' : PyDict.t)
    (st st' : CheckState) (run_timestamp run_timestamp' : string) :
  same_map previous_oos_data previous_oos_data' ->
  same_set (current_instock_skus st) (current_instock_skus st') ->
  same_map (current_oos_dict (current_oos_products st))
           (current_oos_dict (current_oos_products st')) ->
  total_currently_oos st = total_currently_oos st' ->
  tl (analysis_report_lines previous_oos_data st run_timestamp)
  = tl (analysis_report_lines previous_oos_data' st' run_timestamp').
Proof.
  intros Hp Hi Hc Htot.
  pose proof (analysis_loop_same _ _ _ _ Hp Hi Hc) as Hloop.
  unfold analysis_report_lines, report_header. simpl. f_equal.
  pose proof (all_relevant_same _ _ _ _ Hp Hc) as HP.
  destruct (all_relevant_skus previous_oos_data (current_oos_products st)) as [|x l],
    (all_relevant_skus previous_oos_data' (current_oos_products st')) as [|x' l'].
  - reflexivity.
  - apply Permutation_nil in HP. discriminate.
  - symmetry in HP. apply Permutation_nil in HP. discriminate.
  - rewrite Hloop. unfold summary_lines. now rewrite Htot.
Qed.

(** C4, amended.  Two runs of the analysis whose previous snapshots,
    in-stock sets and confirmed out-of-stock maps agree as maps and sets,
    however they were built, append the same status lines in the same order
    and reach the same four summary counts.  Their reports agree on every
    line after the first when the current out-of-stock lists have the same
    number of entries; this is the case when, in each run, the SKUs probed
    are pairwise different, none of those found out of stock ends with
    [")"], and the SKUs whose probe raised are the same in both.  The run
    timestamp occurs in the first line only.  The SKUs of the status lines
    are exactly the relevant ones, in strictly ascending order of their
    text. *)
Theorem reconciliation_deterministic :
  forall (previous_oos_data previous_oos_data' : PyDict.t) (st st' : CheckState)
         (run_timestamp run_timestamp' : string),
    same_map previous_oos_data previous_oos_data' ->
    same_set (current_instock_skus st) (current_instock_skus st') ->
    same_map (current_oos_dict (current_oos_products st))
             (current_oos_dict (current_oos_products st')) ->
    analysis_loop previous_oos_data st = analysis_loop previous_oos_data' st'
    /\ (total_currently_oos st = total_currently_oos st' ->
        tl (analysis_report_lines previous_oos_data st run_timestamp)
        = tl (analysis_report_lines previous_oos_data' st' run_timestamp'))
    /\ (forall probes probes' : list (string * ProbeOutcome),
           st = checking_loop probes -> st' = checking_loop probes' ->
           NoDup (map raw_sku (probed probes)) ->
           NoDup (map raw_sku (probed probes')) ->
           (forall p, In p (probed probes) -> is_out_of_stock p = true ->
                      PyStr.endswith_paren (raw_sku p) = false) ->
           (forall p, In p (probed probes') -> is_out_of_stock p = true ->
                      PyStr.endswith_paren (raw_sku p) = false) ->
           same_set (errored_skus probes) (errored_skus probes') ->
           tl (analysis_report_lines previous_oos_data st run_timestamp)
           = tl (analysis_report_lines previous_oos_data' st' run_timestamp'))
    /\ hd_error (analysis_report_lines previous_oos_data st run_timestamp)
       = Some ("Analysis Report - " ++ run_timestamp)
    /\ exists skus : list string,
         StronglySorted (fun a b => String.ltb a b = true) skus
         /\ (forall sku, In sku skus <->
               present previous_oos_data sku
               || present (current_oos_dict (current_oos_products st)) sku = true)
         /\ fst (analysis_loop previous_oos_data st)
            = flat_map (status_lines_of previous_oos_data st) skus.
Proof.
  intros prev prev' st st' ts ts' Hp Hi Hc.
  split; [now apply analysis_loop_same|]. split; [|split; [|split]].
  - now apply report_tail_same.
  - intros probes probes' -> -> Hnd Hnd' Hparen Hparen' He.
    apply report_tail_same; auto.
    rewrite (total_as_sum probes Hnd Hparen), (total_as_sum probes' Hnd' Hparen').
    f_equal.
    + apply same_map_len; auto using current_oos_dict_NoDup.
    + apply Permutation_length, NoDup_Permutation;
        auto using errored_skus_NoDup.
      intros k. now rewrite <- !mem_In, (He k).
  - reflexivity.
  - exists (sorted (fun s => s) (all_relevant_skus prev (current_oos_products st))).
    split; [|split].
    + apply sorted_strings_strict, union_NoDup, of_list_NoDup.
    + intros sku. rewrite sorted_In.
      unfold all_relevant_skus, previous_oos_skus_set, current_oos_skus_set.
      rewrite union_In, <- !mem_In, !mem_keys, orb_true_iff. reflexivity.
    + apply analysis_loop_lines.
Qed.

(** Deciding a string against a finite list of literals. *)
Ltac by_string_cases k :=
  repeat match goal with
         | |- context [String.eqb ?s k] =>
             let E := fresh "E" in
             destruct (String.eqb s k) eqn:E;
             [apply String.eqb_eq in E; subst k|]
         | |- context [String.eqb k ?s] =>
             let E := fresh "E" in
             destruct (String.eqb k s) eqn:E;
             [apply String.eqb_eq in E; subst k|]
         end;
  try reflexivity; try discriminate.

(** Replacing a closed term by its value. *)
Ltac eval_closed t :=
  let v := eval vm_compute in t in change t with v.

Lemma reconciliation_deterministic_witness :
  analysis_loop sample_previous (checking_loop sample_probes)
  = analysis_loop sample_previous' (checking_loop sample_probes')
  /\ tl (analysis_report_lines sample_previous (checking_loop sample_probes)
           "2024-01-01 00:00:00")
     = tl (analysis_report_lines sample_previous' (checking_loop sample_probes')
             "2024-01-02 00:00:00")
  /\ fst (analysis_loop sample_previous (checking_loop sample_probes))
     = [ "[+] RESTOCKED  : A (Was OOS: u1)";
         "[-] STILL OOS  : B (Link: u2b)";
         "[!] NEWLY OOS  : C (Link: u3)" ].
Proof.
  assert (Hp : same_map sample_previous sample_previous').
  { intros k. unfold sample_previous, sample_previous'.
    cbn [PyDict.lookup]. by_string_cases k. }
  assert (Hi : same_set (current_instock_skus (checking_loop sample_probes))
                        (current_instock_skus (checking_loop sample_probes'))).
  { intros k.
    eval_closed (current_instock_skus (checking_loop sample_probes)).
    eval_closed (current_instock_skus (checking_loop sample_probes')).
    unfold PySet.mem. cbn [existsb]. by_string_cases k. }
  assert (Hc : same_map
                 (current_oos_dict (current_oos_products (checking_loop sample_probes)))
                 (current_oos_dict (current_oos_products (checking_loop sample_probes')))).
  { intros k.
    eval_closed (current_oos_dict (current_oos_products (checking_loop sample_probes))).
    eval_closed (current_oos_dict (current_oos_products (checking_loop sample_probes'))).
    cbn [PyDict.lookup]. by_string_cases k. }
  destruct (reconciliation_deterministic
              sample_previous sample_previous'
              (checking_loop sample_probes) (checking_loop sample_probes')
              "2024-01-01 00:00:00" "2024-01-02 00:00:00" Hp Hi Hc)
    as (Hloop & _ & Hruns & _).
  split; [exact Hloop|]. split; [|reflexivity].
  apply (Hruns sample_probes sample_probes' eq_refl eq_refl).
  - vm_compute. repeat constructor; simpl; intuition discriminate.
  - vm_compute. repeat constructor; simpl; intuition discriminate.
  - intros p Hp'. change (probed sample_probes) with sample_probes in Hp'.
    unfold sample_probes in Hp'. simpl in Hp'.
    destruct Hp' as [<-|[<-|[<-|[<-|[]]]]]; intros H; try discriminate H; reflexivity.
  - intros p Hp'. change (probed sample_probes') with sample_probes' in Hp'.
    unfold sample_probes' in Hp'. simpl in Hp'.
    destruct Hp' as [<-|[<-|[<-|[<-|[]]]]]; intros H; try discriminate H; reflexivity.
  - intros k. reflexivity.
Defined.

(** C4 as worded fails: a SKU on two lines of the SKU file and the same
    SKU on one line give the same previous snapshot, in-stock set,
    confirmed out-of-stock map and errored SKUs, and two reports that
    differ in their last line. *)
Lemma total_line_differs_on_same_inputs :
  let st := checking_loop repeated_probes in
  let st' := checking_loop single_probes in
  current_instock_skus st = current_instock_skus st'
  /\ current_oos_dict (current_oos_products st)
     = current_oos_dict (current_oos_products st')
  /\ errored_skus repeated_probes = errored_skus single_probes
  /\ analysis_report_lines [] st "T" <> analysis_report_lines [] st' "T"
  /\ last (analysis_report_lines [] st "T") ""
     = "  Total Currently OOS (incl errors): 2"
  /\ last (analysis_report_lines [] st' "T") ""
     = "  Total Currently OOS (incl errors): 1".
Proof.
  cbv zeta. repeat split; try reflexivity.
  intros H. apply (f_equal (fun l => last l "")) in H.
  vm_compute in H. discriminate.
Qed.

(** ** SKUs that end with a closing parenthesis *)

Lemma present_keys (d : PyDict.t) (k : string) :
  present d k = true <-> In k (PyDict.keys d).
Proof.
  rewrite keys_In_lookup. unfold present.
  destruct (PyDict.lookup d k); intuition congruence.
Qed.

Lemma endswith_paren_nonempty (s : string) :
  PyStr.endswith_paren s = true -> s <> "".
Proof. intros H ->. discriminate. Qed.

Lemma fold_append_app (l1 l2 : list string) :
  fold_right String.append "" (l1 ++ l2)%list
  = fold_right String.append "" l1 ++ fold_right String.append "" l2.
Proof.
  induction l1 as [|x l1 IH]; [reflexivity|].
  cbn [app fold_right]. now rewrite IH, append_assoc.
Qed.

(** The text written holds the line of every record of the list. *)
Lemma snapshot_text_contains (products : list Product) (item : Product) :
  In item products ->
  exists before after,
    snapshot_text products = before ++ snapshot_line item ++ after.
Proof.
  intros Hin. apply (sorted_In sku products item) in Hin.
  apply in_split in Hin. destruct Hin as (l1 & l2 & Hsplit).
  exists (fold_right String.append "" (map snapshot_line l1)),
    (fold_right String.append "" (map snapshot_line l2)).
  unfold snapshot_text. rewrite Hsplit, map_app, fold_append_app. reflexivity.
Qed.

(** C10.  Whether a recorded SKU text is a key of the confirmed
    out-of-stock dictionary depends only on its last character.  So a SKU
    that ends with [")"] and was found out of stock is not a key of that
    dictionary and is never classified STILL_OOS or NEWLY_OOS, whatever
    the previous snapshot; yet its record is in [current_oos_products],
    the current out-of-stock file as written holds its line, it is one of
    the probes that the total counts, and the last line of a report with a
    summary shows that total. *)
Theorem paren_sku_never_confirmed :
  forall (probes : list (string * ProbeOutcome)) (line product_url : string),
    In (line, OUT_OF_STOCK product_url) probes ->
    PyStr.endswith_paren (PyStr.strip line) = true ->
    let raw := PyStr.strip line in
    let st := checking_loop probes in
    let products := current_oos_products st in
    let counted :=
      List.length (filter is_out_of_stock (probed probes))
      + List.length (filter is_error (probed probes)) in
    (forall item, In item products ->
                  present (current_oos_dict products) (sku item)
                  = negb (PyStr.endswith_paren (sku item)))
    /\ present (current_oos_dict products) raw = false
    /\ (forall previous_oos_data,
           outcome previous_oos_data st raw <> Some STILL_OOS
           /\ outcome previous_oos_data st raw <> Some NEWLY_OOS)
    /\ In (mkProduct raw product_url) products
    /\ In (raw ++ tab ++ product_url ++ nl)
          (map snapshot_line (sorted sku products))
    /\ (forall w, exists before after,
           files (write_current_oos w products) CURRENT_OOS_FILE_PATH
           = Some (before ++ (raw ++ tab ++ product_url ++ nl) ++ after))
    /\ total_currently_oos st = counted
    /\ In (line, OUT_OF_STOCK product_url) (filter is_out_of_stock (probed probes))
    /\ (forall previous_oos_data run_timestamp,
           all_relevant_skus previous_oos_data products <> [] ->
           last (analysis_report_lines previous_oos_data st run_timestamp) ""
           = total_line counted).
Proof.
  intros probes line u Hin Hparen raw st products counted.
  assert (Hprobed : In (line, OUT_OF_STOCK u) (probed probes)).
  { unfold probed. apply filter_In. split; [exact Hin|].
    unfold raw_sku. cbn [fst].
    destruct (String.eqb (PyStr.strip line) "") eqn:E; [|reflexivity].
    apply String.eqb_eq in E. now apply endswith_paren_nonempty in Hparen. }
  assert (Hprod : In (mkProduct raw u) products).
  { unfold products, st. rewrite checking_loop_products.
    apply in_flat_map. exists (line, OUT_OF_STOCK u). split; [exact Hprobed|].
    now left. }
  assert (Habsent : present (current_oos_dict products) raw = false).
  { destruct (present (current_oos_dict products) raw) eqn:E; [|reflexivity].
    apply present_keys, current_oos_dict_keys in E. destruct E as [_ E].
    unfold raw in E. congruence. }
  assert (Htotal : total_currently_oos st = counted).
  { unfold total_currently_oos, st, counted. rewrite checking_loop_products.
    apply product_of_length. }
  repeat match goal with |- _ /\ _ => split end.
  - intros item Hitem.
    destruct (PyStr.endswith_paren (sku item)) eqn:E; cbn [negb].
    + destruct (present (current_oos_dict products) (sku item)) eqn:P;
        [|reflexivity].
      apply present_keys, current_oos_dict_keys in P. destruct P as [_ P].
      congruence.
    + apply present_keys, current_oos_dict_keys. split; [|exact E].
      now exists item.
  - exact Habsent.
  - intros prev. unfold outcome. rewrite classify_by_lookup.
    fold products. cbv zeta. rewrite Habsent.
    destruct (present prev raw), (PySet.mem raw (current_instock_skus st));
      cbn; split; discriminate.
  - exact Hprod.
  - change (raw ++ tab ++ u ++ nl) with (snapshot_line (mkProduct raw u)).
    apply in_map. now apply sorted_In.
  - intros w. destruct (snapshot_text_contains products _ Hprod) as (b & a & Htext).
    exists b, a. unfold write_current_oos, open_write. cbn [files files_set Path_eqb].
    now rewrite Htext.
  - exact Htotal.
  - apply filter_In. split; [exact Hprobed|reflexivity].
  - intros prev ts Hne. rewrite <- Htotal. now apply report_last_line.
Qed.

Lemma paren_sku_never_confirmed_witness :
  present (current_oos_dict (current_oos_products (checking_loop paren_probes)))
          "AB(1)" = false
  /\ (exists before after,
        files (write_current_oos (mkWorld first_run_files [])
                 (current_oos_products (checking_loop paren_probes)))
              CURRENT_OOS_FILE_PATH
        = Some (before ++ ("AB(1)" ++ tab ++ "u1" ++ nl) ++ after))
  /\ last (analysis_report_lines [] (checking_loop paren_probes) "T") ""
     = "  Total Currently OOS (incl errors): 2".
Proof.
  destruct (paren_sku_never_confirmed paren_probes ("AB(1)" ++ nl) "u1"
              (or_introl eq_refl) eq_refl)
    as (_ & Habsent & _ & _ & _ & Hfile & _ & _ & Hlast).
  split; [exact Habsent|]. split; [exact (Hfile (mkWorld first_run_files []))|].
  rewrite (Hlast [] "T") by discriminate. reflexivity.
Defined.

(** ** The three observation sets *)

Lemma NoDup_map_eq {A B : Type} (f : A -> B) (l : list A) (x y : A) :
  NoDup (map f l) -> In x l -> In y l -> f x = f y -> x = y.
Proof.
  induction l as [|a l IH]; intros Hnd Hx Hy E; [destruct Hx|].
  cbn [map] in Hnd. inversion Hnd as [|? ? Hnotin Hnd']; subst.
  destruct Hx as [->|Hx], Hy as [->|Hy].
  - reflexivity.
  - exfalso. apply Hnotin. rewrite E. now apply in_map.
  - exfalso. apply Hnotin. rewrite <- E. now apply in_map.
  - now apply IH.
Qed.

Section ObservationSets.

Variable probes : list (string * ProbeOutcome).
Hypothesis probed_once : NoDup (map raw_sku (probed probes)).

Let st := checking_loop probes.

Variable p : string * ProbeOutcome.
Hypothesis p_probed : In p (probed probes).

(** With pairwise different SKUs, a SKU is in the in-stock set exactly
    when its probe found stock. *)
Lemma instock_iff :
  In (raw_sku p) (current_instock_skus st) <-> is_in_stock p = true.
Proof.
  unfold st. rewrite checking_loop_instock, in_map_iff. split.
  - intros (q & Hq & Hin). apply filter_In in Hin. destruct Hin as [Hin Hs].
    now rewrite <- (NoDup_map_eq raw_sku _ q p probed_once Hin p_probed Hq).
  - intros H. exists p. split; [reflexivity|]. now apply filter_In.
Qed.

(** It is a key of the confirmed out-of-stock dictionary exactly when its
    probe found no stock and its text does not end with [")"]. *)
Lemma confirmed_iff :
  In (raw_sku p) (PyDict.keys (current_oos_dict (current_oos_products st)))
  <-> is_out_of_stock p = true /\ PyStr.endswith_paren (raw_sku p) = false.
Proof.
  rewrite current_oos_dict_keys. unfold st. rewrite checking_loop_products.
  split.
  - intros [(item & Hitem & Hsku) Hparen]. split; [|exact Hparen].
    apply in_flat_map in Hitem. destruct Hitem as (q & Hq & Hitem).
    unfold product_of in Hitem. unfold is_out_of_stock.
    destruct q as [line o]. cbn [snd] in Hitem.
    destruct o as [|u|e u]; cbn [In] in Hitem.
    + destruct Hitem.
    + destruct Hitem as [<-|[]]. cbn [sku] in Hsku.
      now rewrite <- (NoDup_map_eq raw_sku _ _ p probed_once Hq p_probed Hsku).
    + destruct Hitem as [<-|[]]. cbn [sku] in Hsku.
      rewrite <- Hsku, error_sku_endswith_paren in Hparen. discriminate.
  - intros [Hoos Hparen]. split; [|exact Hparen].
    unfold is_out_of_stock in Hoos. destruct p as [line o] eqn:Ep.
    cbn [snd] in Hoos. destruct o as [|u|e u]; try discriminate.
    exists (mkProduct (raw_sku (line, OUT_OF_STOCK u)) u). split; [|reflexivity].
    apply in_flat_map. exists (line, OUT_OF_STOCK u). split; [exact p_probed|].
    now left.
Qed.

(** It is among the SKUs whose probe raised exactly when its probe did. *)
Lemma errored_iff :
  In (raw_sku p) (errored_skus probes) <-> is_error p = true.
Proof.
  unfold errored_skus. rewrite in_map_iff. split.
  - intros (q & Hq & Hin). apply filter_In in Hin. destruct Hin as [Hin Hs].
    now rewrite <- (NoDup_map_eq raw_sku _ q p probed_once Hin p_probed Hq).
  - intros H. exists p. split; [reflexivity|]. now apply filter_In.
Qed.

(** X1.  Hence no SKU is both in stock and confirmed out of stock, nor both
    confirmed and errored, nor both in stock and errored. *)
Lemma observation_sets_disjoint :
  ~ (In (raw_sku p) (current_instock_skus st)
     /\ In (raw_sku p) (PyDict.keys (current_oos_dict (current_oos_products st))))
  /\ ~ (In (raw_sku p) (PyDict.keys (current_oos_dict (current_oos_products st)))
        /\ In (raw_sku p) (errored_skus probes))
  /\ ~ (In (raw_sku p) (current_instock_skus st)
        /\ In (raw_sku p) (errored_skus probes)).
Proof.
  rewrite instock_iff, confirmed_iff, errored_iff.
  unfold is_in_stock, is_out_of_stock, is_error.
  destruct (snd p); intuition discriminate.
Qed.

(** X2.  Every SKU that does not end with [")"] is in one of the three. *)
Lemma observation_sets_cover :
  PyStr.endswith_paren (raw_sku p) = false ->
  In (raw_sku p) (current_instock_skus st)
  \/ In (raw_sku p) (PyDict.keys (current_oos_dict (current_oos_products st)))
  \/ In (raw_sku p) (errored_skus probes).
Proof.
  intros Hparen. rewrite instock_iff, confirmed_iff, errored_iff.
  unfold is_in_stock, is_out_of_stock, is_error.
  destruct (snd p); auto.
Qed.

End ObservationSets.

(** C5 at the failing input.  The SKU file holds [AB(1)] and [B], each
    probed once and found out of stock.  [AB(1)] is then neither in the
    in-stock set, nor a key of the confirmed out-of-stock dictionary, nor
    among the SKUs whose probe raised. *)
Theorem paren_sku_in_no_observation_set :
  let st := checking_loop paren_probes in
  map raw_sku (probed paren_probes) = ["AB(1)"; "B"]
  /\ PySet.mem "AB(1)" (current_instock_skus st) = false
  /\ PyDict.keys (current_oos_dict (current_oos_products st)) = ["B"]
  /\ errored_skus paren_probes = [].
Proof. vm_compute. repeat split. Qed.

(** ** Reloading an error-tagged line (steps 7 and 1) *)

Lemma rstrip_token_append (a b : string) :
  is_token a = true -> PyStr.rstrip (a ++ b) = a ++ PyStr.rstrip b.
Proof.
  induction a as [|c a IH]; [reflexivity|].
  cbn [is_token String.append PyStr.rstrip]. intros H.
  apply andb_true_iff in H. destruct H as [Hc Ha].
  rewrite (IH Ha). apply negb_true_iff in Hc. rewrite Hc.
  now destruct (a ++ PyStr.rstrip b).
Qed.

Lemma span_token_append (a b : string) (c : ascii) :
  is_token a = true -> PyStr.isspace c = true ->
  PyStr.span_token (a ++ String c b) = (a, String c b).
Proof.
  intros Ha Hc. induction a as [|x a IH]; cbn [String.append PyStr.span_token].
  - now rewrite Hc.
  - cbn [is_token] in Ha. apply andb_true_iff in Ha. destruct Ha as [Hx Ha].
    apply negb_true_iff in Hx. now rewrite Hx, (IH Ha).
Qed.

Lemma rstrip_nonspace_head (c : ascii) (s : string) :
  PyStr.isspace c = false -> PyStr.rstrip (String c s) = String c (PyStr.rstrip s).
Proof.
  intros Hc. cbn [PyStr.rstrip]. rewrite Hc. now destruct (PyStr.rstrip s).
Qed.

(** The line written for a SKU whose probe raised, read back by the load
    loop: [split] cuts the recorded text at its first blank, so the key is
    the SKU itself and the test for an error remnant is made on it. *)
Lemma error_line_loads_sku (d : PyDict.t) (raw exc_name product_url : string) :
  raw <> "" ->
  is_token raw = true ->
  PyStr.endswith_paren raw && PyStr.contains "(Error:" raw = false ->
  exists url,
    load_line d (snapshot_line (mkProduct (error_sku raw exc_name) product_url))
    = PyDict.set d raw url.
Proof.
  intros Hne Htok Hrem.
  unfold snapshot_line, error_sku. cbn [sku url].
  set (rest := String PyStr.TAB (product_url ++ String PyStr.LF "")).
  assert (Hline : (raw ++ " (Error: " ++ exc_name ++ ")") ++ rest
                  = raw ++ String " "%char (String "("%char
                      ("Error: " ++ exc_name ++ ")" ++ rest))).
  { rewrite append_assoc. f_equal. cbn [String.append]. do 9 f_equal.
    now rewrite append_assoc. }
  rewrite Hline. clear Hline.
  set (tail := "Error: " ++ exc_name ++ ")" ++ rest).
  destruct raw as [|c raw']; [congruence|].
  pose proof Htok as Htok'. cbn [is_token] in Htok'.
  apply andb_true_iff in Htok'. destruct Htok' as [Hc _].
  apply negb_true_iff in Hc.
  unfold load_line, PyStr.strip.
  assert (Hl : PyStr.lstrip (String c raw' ++ String " "%char (String "("%char tail))
               = String c raw' ++ String " "%char (String "("%char tail)).
  { cbn [String.append PyStr.lstrip]. now rewrite Hc. }
  rewrite Hl, (rstrip_token_append _ _ Htok).
  assert (Hr : PyStr.rstrip (String " "%char (String "("%char tail))
               = String " "%char (String "("%char (PyStr.rstrip tail))).
  { change (PyStr.rstrip (String " "%char (String "("%char tail)))
      with (match PyStr.rstrip (String "("%char tail) with
            | EmptyString => EmptyString
            | r' => String " "%char r'
            end).
    now rewrite rstrip_nonspace_head by reflexivity. }
  rewrite Hr. clear Hr Hl.
  cbn [String.append String.eqb]. unfold PyStr.split_maxsplit1.
  cbn [PyStr.lstrip]. rewrite Hc.
  change (String c (raw' ++ String " "%char (String "("%char (PyStr.rstrip tail))))
    with (String c raw' ++ String " "%char (String "("%char (PyStr.rstrip tail))).
  rewrite (span_token_append _ _ _ Htok) by reflexivity.
  change (PyStr.lstrip (String " "%char (String "("%char (PyStr.rstrip tail))))
    with (String "("%char (PyStr.rstrip tail)).
  cbv iota beta.
  destruct (PyStr.endswith_paren (String c raw')),
    (PyStr.contains "(Error:" (String c raw')); try discriminate;
    cbn [negb orb]; eexists; reflexivity.
Qed.

(** C1 at the failing input.  The probe of [SKU-9] raises [Timeout]; the
    run writes the line [SKU-9 (Error: Timeout)], tab, URL to the current
    out-of-stock file; and loading that file gives a dictionary with the
    key [SKU-9]. *)
Theorem error_tag_survives_reload :
  exists w' report text,
    main "2024-01-01 00:00:00" error_prober (mkWorld error_run_files [])
    = Ok (Finished w' report)
    /\ files w' CURRENT_OOS_FILE_PATH = Some text
    /\ text = "SKU-9 (Error: Timeout)" ++ tab
              ++ "https://example-store.com/search.php?search_query=SKU-9" ++ nl
    /\ load_previous text
       = [ ("SKU-9",
            "(Error: Timeout)" ++ tab
            ++ "https://example-store.com/search.php?search_query=SKU-9") ].
Proof.
  do 3 eexists. split; [vm_compute; reflexivity|].
  split; [vm_compute; reflexivity|]. split; vm_compute; reflexivity.
Qed.

(** The general lemma at the SKU of the failing input. *)
Example error_line_loads_sku_ex :
  exists url,
    load_line [] (snapshot_line (mkProduct (error_sku "SKU-9" "Timeout") "u"))
    = [("SKU-9", url)].
Proof.
  exact (error_line_loads_sku [] "SKU-9" "Timeout" "u"
           ltac:(discriminate) eq_refl eq_refl).
Qed.

(** ** [parts[0]] in the load loop *)

Lemma lstrip_empty_rstrip (s : string) :
  PyStr.lstrip s = "" -> PyStr.rstrip s = "".
Proof.
  induction s as [|c s IH]; [reflexivity|].
  cbn [PyStr.lstrip PyStr.rstrip].
  destruct (PyStr.isspace c); [|discriminate].
  intros H. now rewrite (IH H).
Qed.

Lemma rstrip_idempotent (s : string) :
  PyStr.rstrip (PyStr.rstrip s) = PyStr.rstrip s.
Proof.
  induction s as [|c s IH]; [reflexivity|].
  cbn [PyStr.rstrip]. destruct (PyStr.rstrip s) as [|x r] eqn:E.
  - destruct (PyStr.isspace c) eqn:Ec; [reflexivity|].
    cbn [PyStr.rstrip]. now rewrite Ec.
  - cbn [PyStr.rstrip] in *. now rewrite IH.
Qed.

(** A line that is not blank once stripped splits into at least one
    part. *)
Lemma split_of_stripped_nonempty (line : string) :
  PyStr.strip line <> "" -> PyStr.split_maxsplit1 (PyStr.strip line) <> [].
Proof.
  intros Hne. unfold PyStr.split_maxsplit1.
  destruct (PyStr.lstrip (PyStr.strip line)) eqn:E.
  - exfalso. apply Hne. apply lstrip_empty_rstrip in E.
    unfold PyStr.strip in *. now rewrite rstrip_idempotent in E.
  - destruct (PyStr.span_token (String a s)) as [tok rest].
    destruct (PyStr.lstrip rest); discriminate.
Qed.

(** ** The stock test of the probe (lines 98-104) *)

Lemma decimal_char_zero (c : ascii) :
  is_decimal_char c = true ->
  (N_of_ascii c - 48 = 0)%N <-> Ascii.eqb c "0"%char = true.
Proof.
  destruct c as [[] [] [] [] [] [] [] []]; vm_compute; intros H;
    try discriminate H; split; intros E; try reflexivity; discriminate E.
Qed.

Lemma decimal_is_digit (c : ascii) :
  is_decimal_char c = true -> is_digit_char c = true.
Proof. intros H. unfold is_digit_char. now rewrite H. Qed.

Lemma all_chars_impl (f g : ascii -> bool) (s : string) :
  (forall c, f c = true -> g c = true) ->
  all_chars f s = true -> all_chars g s = true.
Proof.
  intros Hfg. induction s as [|c s IH]; [reflexivity|].
  cbn [all_chars]. rewrite !andb_true_iff. intros [Hc Hs]. auto.
Qed.

Lemma digits_value_positive (s : string) (acc : N) :
  all_chars is_decimal_char s = true ->
  (0 <? digits_value acc s)%N
  = ((0 <? acc)%N || negb (all_chars (fun c => Ascii.eqb c "0"%char) s)).
Proof.
  revert acc. induction s as [|c s IH]; intros acc; cbn [all_chars digits_value].
  - intros _. now rewrite orb_false_r.
  - rewrite andb_true_iff. intros [Hc Hs]. rewrite (IH _ Hs).
    pose proof (decimal_char_zero c Hc) as Hz.
    destruct (Ascii.eqb c "0"%char) eqn:E; cbn [andb negb].
    + assert (H0 : (N_of_ascii c - 48 = 0)%N) by now apply Hz.
      rewrite H0. f_equal.
      destruct (N.ltb_spec 0 acc), (N.ltb_spec 0 (10 * acc + 0)); try reflexivity; lia.
    + assert (H0 : (N_of_ascii c - 48 <> 0)%N).
      { intros H. apply Hz in H. discriminate. }
      rewrite !orb_true_r.
      destruct (N.ltb_spec 0 (10 * acc + (N_of_ascii c - 48))); [reflexivity|lia].
Qed.

(** The loop body of [any] on one value that [int] converts. *)
Lemma any_positive_step (val : string) (rest : list (option string)) :
  convertible val = true ->
  any_positive (Some val :: rest)
  = if positive_decimal val then Done true else any_positive rest.
Proof.
  unfold convertible, positive_decimal. intros Hc. cbn [any_positive].
  destruct (String.eqb val "") eqn:Ee; cbn [negb andb]; [reflexivity|].
  destruct (isdigit val) eqn:Ed; cbn [negb orb] in Hc.
  - apply andb_true_iff in Hc. destruct Hc as [Hdec Hlen].
    unfold int_of_digits. rewrite Hdec, Hlen. cbn [andb].
    rewrite (digits_value_positive _ _ Hdec). cbn [N.ltb N.compare orb].
    now destruct (all_chars (fun c => Ascii.eqb c "0"%char) val).
  - destruct (all_chars is_decimal_char val) eqn:Hdec; cbn [andb]; [|reflexivity].
    exfalso. unfold isdigit in Ed. rewrite Ee in Ed. cbn [negb andb] in Ed.
    rewrite (all_chars_impl _ _ _ decimal_is_digit Hdec) in Ed. discriminate.
Qed.

(** X3.  When [int] cannot raise on any value, stock is found exactly when one
    of the values is a positive decimal number. *)
Theorem any_positive_exact :
  forall (values : list (option string)),
    (forall val, In (Some val) values -> convertible val = true) ->
    any_positive values = Done (existsb positive_value values).
Proof.
  induction values as [|[val|] rest IH]; intros Hconv.
  - reflexivity.
  - rewrite any_positive_step by (apply Hconv; now left).
    cbn [existsb positive_value].
    destruct (positive_decimal val); [reflexivity|].
    apply IH. intros v Hv. apply Hconv. now right.
  - cbn [any_positive existsb positive_value orb].
    apply IH. intros v Hv. apply Hconv. now right.
Qed.

Lemma any_positive_exact_witness :
  has_stock sample_page = Done true.
Proof.
  unfold has_stock, sample_page. cbn [qty_select].
  rewrite any_positive_exact; [reflexivity|].
  intros val Hval. simpl in Hval.
  destruct Hval as [H|[H|[H|[H|[H|[H|[]]]]]]]; try discriminate H;
    injection H as <-; reflexivity.
Defined.

(** Stock is never found without a positive decimal value. *)
Theorem any_positive_sound :
  forall (values : list (option string)),
    any_positive values = Done true ->
    exists val, In (Some val) values /\ positive_decimal val = true.
Proof.
  induction values as [|[val|] rest IH]; cbn [any_positive].
  - discriminate.
  - destruct (String.eqb val "") eqn:Ee.
    { intros H. destruct (IH H) as (v & Hv & Hp). exists v. split; [now right|exact Hp]. }
    destruct (isdigit val) eqn:Ed.
    2: { intros H. destruct (IH H) as (v & Hv & Hp). exists v. split; [now right|exact Hp]. }
    unfold int_of_digits.
    destruct (all_chars is_decimal_char val) eqn:Hdec; cbn [andb]; [|discriminate].
    destruct (String.length val <=? 4300)%nat; [|discriminate].
    rewrite (digits_value_positive _ _ Hdec). cbn [N.ltb N.compare orb].
    destruct (all_chars (fun c => Ascii.eqb c "0"%char) val) eqn:Ez; cbn [negb].
    + intros H. destruct (IH H) as (v & Hv & Hp). exists v. split; [now right|exact Hp].
    + intros _. exists val. split; [now left|].
      unfold positive_decimal. now rewrite Ee, Hdec, Ez.
  - intros H. destruct (IH H) as (v & Hv & Hp). exists v. split; [now right|exact Hp].
Qed.

Lemma any_positive_sound_witness :
  exists val, In (Some val) [None; Some "00"; Some "12"] /\ positive_decimal val = true.
Proof. exact (any_positive_sound [None; Some "00"; Some "12"] eq_refl). Defined.

(** X4.  A value that [isdigit] accepts and [int] rejects, met before any
    positive value, makes the stock test raise [ValueError]; the SKU is
    then recorded as an error with the URL of the page. *)
Theorem stock_test_raises_value_error :
  forall (product_url : string) (prod_soup : Page)
         (before after : list (option string)) (val : string),
    qty_select prod_soup = Some (before ++ Some val :: after)%list ->
    forallb harmless before = true ->
    isdigit val = true ->
    convertible val = false ->
    stock_outcome product_url prod_soup = ERROR "ValueError" product_url.
Proof.
  intros url page before after val Hq Hbefore Hd Hc.
  unfold stock_outcome, has_stock. rewrite Hq. clear Hq.
  assert (H : any_positive (before ++ Some val :: after)%list = Throws "ValueError").
  { induction before as [|[v|] before IH]; cbn [app].
    - cbn [any_positive]. rewrite Hd.
      destruct (String.eqb val "") eqn:Ee.
      { apply String.eqb_eq in Ee. subst. discriminate Hd. }
      unfold int_of_digits. unfold convertible in Hc. rewrite Hd in Hc.
      cbn [negb orb] in Hc. now rewrite Hc.
    - cbn [forallb harmless] in Hbefore.
      apply andb_true_iff in Hbefore. destruct Hbefore as [Hv Hbefore].
      apply andb_true_iff in Hv. destruct Hv as [Hconv Hnp].
      rewrite any_positive_step by exact Hconv.
      apply negb_true_iff in Hnp. rewrite Hnp. now apply IH.
    - cbn [any_positive]. cbn [forallb harmless andb] in Hbefore. now apply IH. }
  now rewrite H.
Qed.

Lemma stock_test_raises_value_error_witness :
  stock_outcome "https://example-store.com/p" (mkPage [] (Some superscript_values))
  = ERROR "ValueError" "https://example-store.com/p".
Proof.
  exact (stock_test_raises_value_error "https://example-store.com/p"
           (mkPage [] (Some superscript_values))
           [Some "0"] [Some "5"] (String (ascii_of_nat 178) "")
           eq_refl eq_refl eq_refl eq_refl).
Defined.

(** ** The probe of one SKU (lines 76-113) *)

Lemma stock_outcome_url (product_url : string) (prod_soup : Page) :
  prefix "http" product_url = true ->
  recorded_url_ok (stock_outcome product_url prod_soup).
Proof.
  intros H. unfold stock_outcome.
  destruct (has_stock prod_soup) as [[]|e]; simpl; auto.
Qed.

Lemma resolved_url_absolute (href : string) :
  prefix "http" (if prefix "http" href then href else BASE_URL ++ href) = true.
Proof. destruct (prefix "http" href) eqn:E; [exact E|reflexivity]. Qed.

(** X5.  Whatever the network answers, the URL recorded for a SKU found out of
    stock starts with [http], and so does the one recorded with an error,
    except when the first product link has no [href]: the error is then an
    [AttributeError] and the URL is recorded as [None]. *)
Theorem probe_url_absolute :
  forall (net : string -> Fetch) (sku : string),
    recorded_url_ok (probe_sku net sku).
Proof.
  intros net sku. unfold probe_sku.
  destruct (net (search_url_of sku)) as [soup|e].
  - destruct (product_links soup) as [|[href|] links].
    + now apply stock_outcome_url.
    + destruct (net (if prefix "http" href then href else BASE_URL ++ href))
        as [prod_soup|e].
      * apply stock_outcome_url, resolved_url_absolute.
      * left. apply resolved_url_absolute.
    + right. split; reflexivity.
  - left. reflexivity.
Qed.

Lemma stock_outcome_positive (product_url : string) (prod_soup : Page) :
  stock_outcome product_url prod_soup = IN_STOCK ->
  exists values,
    qty_select prod_soup = Some values /\ any_positive values = Done true.
Proof.
  unfold stock_outcome, has_stock.
  destruct (qty_select prod_soup) as [values|]; [|discriminate].
  destruct (any_positive values) as [[]|e] eqn:E; try discriminate.
  intros _. now exists values.
Qed.

Lemma probe_in_stock (net : string -> Fetch) (sku : string) :
  probe_sku net sku = IN_STOCK ->
  exists url page values,
    examines net sku url page
    /\ qty_select page = Some values /\ any_positive values = Done true.
Proof.
  unfold probe_sku, examines.
  destruct (net (search_url_of sku)) as [soup|e] eqn:Es; [|discriminate].
  destruct (product_links soup) as [|[href|] links] eqn:El; [| |discriminate].
  - intros H. apply stock_outcome_positive in H. destruct H as (values & Hq & Ha).
    exists (search_url_of sku), soup, values. split; [|now split].
    exists soup. split; [reflexivity|]. left. now rewrite El.
  - destruct (net (if prefix "http" href then href else BASE_URL ++ href))
      as [prod_soup|e] eqn:Ep; [|discriminate].
    intros H. apply stock_outcome_positive in H. destruct H as (values & Hq & Ha).
    exists (if prefix "http" href then href else BASE_URL ++ href), prod_soup, values.
    split; [|now split].
    exists soup. split; [reflexivity|]. right. exists href, links. now rewrite El.
Qed.

Lemma combine_seq_nth {A : Type} (l : list A) (a i : nat) (x : A) :
  In (i, x) (combine (seq a (List.length l)) l) ->
  a <= i /\ nth_error l (i - a) = Some x.
Proof.
  revert a. induction l as [|y l IH]; intros a; [intros []|].
  cbn [List.length seq combine]. intros [H|H].
  - injection H as <- <-. split; [lia|]. now rewrite Nat.sub_diag.
  - apply IH in H. destruct H as [Hle Hn]. split; [lia|].
    replace (i - a) with (S (i - S a)) by lia. exact Hn.
Qed.

Lemma probes_of_In (prober : nat -> string -> ProbeOutcome)
    (lines : list string) (p : string * ProbeOutcome) :
  In p (probes_of prober lines) ->
  exists i line, In line lines /\ p = (line, prober i (PyStr.strip line)).
Proof.
  unfold probes_of. rewrite in_map_iff. intros ([i line] & <- & Hin).
  exists i, line. split; [|reflexivity].
  now apply in_combine_r in Hin.
Qed.

Lemma probes_of_nth (prober : nat -> string -> ProbeOutcome)
    (lines : list string) (p : string * ProbeOutcome) :
  In p (probes_of prober lines) ->
  exists i line,
    nth_error lines i = Some line /\ p = (line, prober i (PyStr.strip line)).
Proof.
  unfold probes_of. rewrite in_map_iff. intros ([i line] & <- & Hin).
  exists i, line. split; [|reflexivity].
  apply combine_seq_nth in Hin. destruct Hin as [_ Hn].
  now rewrite Nat.sub_0_r in Hn.
Qed.

(** X6.  A SKU is in the in-stock set of a run only if it is the stripped
    text of some line of the SKU file and the page on which the probe of
    that line made its stock test, the search page or the page behind its
    first product link, was fetched and has a quantity selector whose
    values pass the test of line 102, one of them being a positive decimal
    number. *)
Theorem instock_needs_positive_quantity :
  forall (net : nat -> string -> Fetch) (products_to_check : list string) (sku : string),
    In sku (current_instock_skus
              (checking_loop (probes_of (prober_of net) products_to_check))) ->
    exists i line url page values val,
      nth_error products_to_check i = Some line
      /\ PyStr.strip line = sku
      /\ examines (net i) sku url page
      /\ qty_select page = Some values
      /\ any_positive values = Done true
      /\ In (Some val) values /\ positive_decimal val = true.
Proof.
  intros net lines k Hin.
  apply checking_loop_instock, in_map_iff in Hin.
  destruct Hin as (p & Hraw & Hp). apply filter_In in Hp. destruct Hp as [Hp Hs].
  unfold probed in Hp. apply filter_In in Hp. destruct Hp as [Hp _].
  apply probes_of_nth in Hp. destruct Hp as (i & line & Hline & ->).
  unfold raw_sku in Hraw. cbn [fst] in Hraw. subst k.
  unfold is_in_stock in Hs. cbn [snd] in Hs. unfold prober_of in Hs.
  destruct (probe_sku (net i) (PyStr.strip line)) eqn:E; try discriminate.
  destruct (probe_in_stock _ _ E) as (url & page & values & Hex & Hq & Ha).
  destruct (any_positive_sound values Ha) as (val & Hval & Hpos).
  now exists i, line, url, page, values, val.
Qed.

Lemma instock_needs_positive_quantity_witness :
  exists i line url page values val,
    nth_error ["A" ++ nl; "B" ++ nl] i = Some line
    /\ PyStr.strip line = "A"
    /\ examines (linked_net i) "A" url page
    /\ qty_select page = Some values
    /\ any_positive values = Done true
    /\ In (Some val) values /\ positive_decimal val = true.
Proof.
  apply (instock_needs_positive_quantity linked_net ["A" ++ nl; "B" ++ nl] "A").
  vm_compute. now left.
Defined.

(** ** Loading what was saved (steps 1 and 7) *)

Lemma rstrip_append_space (s : string) (c : ascii) :
  PyStr.isspace c = true -> PyStr.rstrip (s ++ String c "") = PyStr.rstrip s.
Proof.
  intros Hc. induction s as [|x s IH].
  - cbn [String.append PyStr.rstrip]. now rewrite Hc.
  - cbn [String.append PyStr.rstrip]. now rewrite IH.
Qed.

Lemma rstrip_all_space (s : string) :
  all_chars PyStr.isspace s = true -> PyStr.rstrip s = "".
Proof.
  induction s as [|c s IH]; [reflexivity|].
  cbn [all_chars PyStr.rstrip]. rewrite andb_true_iff. intros [Hc Hs].
  now rewrite (IH Hs), Hc.
Qed.

Lemma span_token_token (a : string) :
  is_token a = true -> PyStr.span_token a = (a, "").
Proof.
  induction a as [|x a IH]; [reflexivity|].
  cbn [is_token PyStr.span_token]. rewrite andb_true_iff. intros [Hx Ha].
  apply negb_true_iff in Hx. now rewrite Hx, (IH Ha).
Qed.

Lemma token_head (c : ascii) (s : string) :
  is_token (String c s) = true -> PyStr.isspace c = false.
Proof.
  cbn [is_token]. rewrite andb_true_iff. intros [H _]. now apply negb_true_iff.
Qed.

Lemma token_no_lf (s : string) : is_token s = true -> has_char PyStr.LF s = false.
Proof.
  induction s as [|c s IH]; [reflexivity|].
  cbn [is_token has_char]. rewrite andb_true_iff. intros [Hc Hs].
  rewrite (IH Hs), orb_false_r.
  destruct (Ascii.eqb c PyStr.LF) eqn:E; [|reflexivity].
  apply Ascii.eqb_eq in E. subst. discriminate.
Qed.

Lemma error_like_test (s : string) :
  error_like s = false ->
  negb (PyStr.endswith_paren s) || negb (PyStr.contains "(Error:" s) = true.
Proof.
  unfold error_like.
  destruct (PyStr.endswith_paren s), (PyStr.contains "(Error:" s); simpl; congruence.
Qed.

(** The load loop on a stripped line that starts with a clean SKU. *)
Lemma load_stripped (d : PyDict.t) (line s rest : string) :
  clean_sku s ->
  PyStr.strip line = s ++ rest ->
  PyStr.span_token (s ++ rest) = (s, rest) ->
  load_line d line
  = PyDict.set d s (match PyStr.lstrip rest with
                    | EmptyString => "N/A"
                    | u => u
                    end).
Proof.
  intros (Hne & Htok & Herr) Hstrip Hspan.
  unfold load_line. rewrite Hstrip.
  destruct s as [|c s']; [congruence|].
  pose proof (token_head _ _ Htok) as Hc.
  cbn [String.append String.eqb].
  unfold PyStr.split_maxsplit1. cbn [PyStr.lstrip]. rewrite Hc.
  change (String c (s' ++ rest)) with (String c s' ++ rest). rewrite Hspan.
  pose proof (error_like_test _ Herr) as Htest.
  destruct (PyStr.lstrip rest); cbv iota beta; now rewrite Htest.
Qed.

Lemma lstrip_token_head (s rest : string) :
  s <> "" -> is_token s = true -> PyStr.lstrip (s ++ rest) = s ++ rest.
Proof.
  intros Hne Htok. destruct s as [|c s']; [congruence|].
  cbn [String.append PyStr.lstrip]. now rewrite (token_head _ _ Htok).
Qed.

Lemma rstrip_tab_url (u : string) :
  u <> "" -> PyStr.rstrip u = u ->
  PyStr.rstrip (String PyStr.TAB (u ++ String PyStr.LF "")) = String PyStr.TAB u.
Proof.
  intros Hne Hu. cbn [PyStr.rstrip].
  rewrite rstrip_append_space by reflexivity. rewrite Hu.
  destruct u; [congruence|reflexivity].
Qed.

(** A line written for a clean record is read back as that record. *)
Lemma load_line_clean (d : PyDict.t) (item : Product) :
  clean_record item ->
  load_line d (snapshot_line item) = PyDict.set d (sku item) (url item).
Proof.
  intros [Hsku (Hune & Hulf & Hucr & Hul & Hur)].
  pose proof Hsku as (Hne & Htok & Herr).
  rewrite (load_stripped d _ (sku item) (String PyStr.TAB (url item)) Hsku).
  - change (PyStr.lstrip (String PyStr.TAB (url item)))
      with (PyStr.lstrip (url item)).
    rewrite Hul. destruct (url item); [congruence|reflexivity].
  - unfold PyStr.strip, snapshot_line.
    rewrite (lstrip_token_head _ _ Hne Htok), (rstrip_token_append _ _ Htok).
    now rewrite (rstrip_tab_url _ Hune Hur).
  - now apply span_token_append.
Qed.

Lemma fold_load_clean (items : list Product) (d : PyDict.t) :
  Forall clean_record items ->
  fold_left load_line (map snapshot_line items) d
  = fold_left (fun d item => PyDict.set d (sku item) (url item)) items d.
Proof.
  intros H. revert d. induction H as [|item items Hitem _ IH]; intros d.
  - reflexivity.
  - cbn [map fold_left]. now rewrite (load_line_clean d item Hitem), IH.
Qed.

Lemma fold_set_fresh (items : list Product) (d : PyDict.t) :
  NoDup (map sku items) ->
  (forall item, In item items -> ~ In (sku item) (PyDict.keys d)) ->
  fold_left (fun d item => PyDict.set d (sku item) (url item)) items d
  = (d ++ map (fun item => (sku item, url item)) items)%list.
Proof.
  revert d. induction items as [|item items IH]; intros d Hnd Hfresh.
  - cbn. now rewrite app_nil_r.
  - cbn [map] in Hnd. inversion Hnd as [|? ? Hnotin Hnd']; subst.
    cbn [fold_left map]. rewrite set_absent.
    + rewrite IH; [now rewrite <- app_assoc|exact Hnd'|].
      intros it Hit. unfold PyDict.keys. rewrite map_app, in_app_iff.
      intros [H|[H|[]]].
      * revert H. apply Hfresh. now right.
      * cbn [fst] in H. apply Hnotin. rewrite H. now apply in_map.
    + specialize (Hfresh item (or_introl eq_refl)).
      rewrite keys_In_lookup in Hfresh.
      destruct (PyDict.lookup d (sku item)); [exfalso; apply Hfresh; discriminate|reflexivity].
Qed.

Lemma token_no_cr (s : string) : is_token s = true -> has_char PyStr.CR s = false.
Proof.
  induction s as [|c s IH]; [reflexivity|].
  cbn [is_token has_char]. rewrite andb_true_iff. intros [Hc Hs].
  rewrite (IH Hs), orb_false_r.
  destruct (Ascii.eqb c PyStr.CR) eqn:E; [|reflexivity].
  apply Ascii.eqb_eq in E. subst. discriminate.
Qed.

Lemma clean_single_line (item : Product) : clean_record item -> single_line item.
Proof.
  intros [(_ & Htok & _) (_ & Hlf & Hcr & _)]. split; split; auto.
  - now apply token_no_lf.
  - now apply token_no_cr.
Qed.

(** X7.  Saving records with clean, pairwise different SKUs and clean URLs
    (no line feed, no carriage return, no blank at either end) and loading
    the file in text mode gives back exactly these records, in ascending
    order of SKU. *)
Theorem snapshot_round_trip :
  forall (products : list Product),
    Forall clean_record products ->
    NoDup (map sku products) ->
    load_previous (snapshot_text products)
    = map (fun item => (sku item, url item)) (sorted sku products).
Proof.
  intros products Hclean Hnd.
  assert (Hclean' : Forall clean_record (sorted sku products)).
  { rewrite Forall_forall in *. intros x Hx. apply Hclean.
    now apply (sorted_In sku products x). }
  unfold load_previous, snapshot_text.
  rewrite readlines_snapshot.
  - rewrite (fold_load_clean _ _ Hclean'), fold_set_fresh; [reflexivity| |auto].
    eapply Permutation_NoDup; [|exact Hnd].
    apply Permutation_map. symmetry. apply sorted_perm.
  - rewrite Forall_forall in *. intros x Hx. now apply clean_single_line, Hclean'.
Qed.

Lemma snapshot_round_trip_witness :
  load_previous (snapshot_text clean_products)
  = [ ("A(1)", "https://example-store.com/search.php?search_query=A(1)");
      ("B-2", "https://example-store.com/products/b 2") ].
Proof.
  apply (snapshot_round_trip clean_products).
  - unfold clean_products, clean_record, clean_sku, clean_url.
    repeat constructor; try discriminate.
  - unfold clean_products. cbn [map sku].
    repeat constructor; simpl; intuition discriminate.
Defined.

(** X8.  A line that holds a clean SKU and nothing else but whitespace is
    loaded with the URL [N/A]; in particular a record saved with an empty
    URL comes back with [N/A]. *)
Theorem load_line_without_url :
  forall (d : PyDict.t) (s blanks : string),
    clean_sku s ->
    all_chars PyStr.isspace blanks = true ->
    load_line d (s ++ blanks) = PyDict.set d s "N/A"
    /\ load_line d (snapshot_line (mkProduct s "")) = PyDict.set d s "N/A".
Proof.
  assert (H : forall d s blanks, clean_sku s ->
                all_chars PyStr.isspace blanks = true ->
                load_line d (s ++ blanks) = PyDict.set d s "N/A").
  { intros d s blanks Hsku Hb. pose proof Hsku as (Hne & Htok & _).
    rewrite (load_stripped d _ s "" Hsku).
    - reflexivity.
    - unfold PyStr.strip.
      rewrite (lstrip_token_head _ _ Hne Htok), (rstrip_token_append _ _ Htok).
      now rewrite (rstrip_all_space _ Hb).
    - rewrite append_nil_r. now apply span_token_token. }
  intros d s blanks Hsku Hb. split; [now apply H|].
  apply (H d s (String PyStr.TAB (String PyStr.LF "")) Hsku). reflexivity.
Qed.

Lemma load_line_without_url_witness :
  load_line [("A", "u1")] ("B-7" ++ "  " ++ nl) = [("A", "u1"); ("B-7", "N/A")]
  /\ load_line [("A", "u1")] (snapshot_line (mkProduct "B-7" ""))
     = [("A", "u1"); ("B-7", "N/A")].
Proof.
  apply (load_line_without_url [("A", "u1")] "B-7" ("  " ++ nl)).
  - unfold clean_sku. repeat split; discriminate.
  - reflexivity.
Defined.

Lemma lstrip_head (s : string) (c : ascii) (r : string) :
  PyStr.lstrip s = String c r -> PyStr.isspace c = false.
Proof.
  induction s as [|x s IH]; cbn [PyStr.lstrip]; [discriminate|].
  destruct (PyStr.isspace x) eqn:E; [exact IH|].
  intros H. injection H as <- _. exact E.
Qed.

Lemma span_token_fst (s : string) : is_token (fst (PyStr.span_token s)) = true.
Proof.
  induction s as [|c s IH]; [reflexivity|].
  cbn [PyStr.span_token]. destruct (PyStr.isspace c) eqn:E; [reflexivity|].
  destruct (PyStr.span_token s) as [tok rest]. cbn [fst] in *.
  cbn [is_token]. now rewrite E, IH.
Qed.

Lemma span_token_fst_nonempty (c : ascii) (s : string) :
  PyStr.isspace c = false -> fst (PyStr.span_token (String c s)) <> "".
Proof.
  intros E. cbn [PyStr.span_token]. rewrite E.
  destruct (PyStr.span_token s). discriminate.
Qed.

Lemma load_line_keys (d : PyDict.t) (line k : string) :
  In k (PyDict.keys (load_line d line)) -> In k (PyDict.keys d) \/ clean_sku k.
Proof.
  unfold load_line.
  destruct (String.eqb (PyStr.strip line) ""); [now left|].
  unfold PyStr.split_maxsplit1.
  destruct (PyStr.lstrip (PyStr.strip line)) as [|c r] eqn:El; [now left|].
  pose proof (lstrip_head _ _ _ El) as Hc.
  pose proof (span_token_fst (String c r)) as Htok.
  pose proof (span_token_fst_nonempty c r Hc) as Hne.
  destruct (PyStr.span_token (String c r)) as [tok rest]. cbn [fst] in Htok, Hne.
  assert (Hgoal : forall u,
             In k (PyDict.keys
                     (if negb (PyStr.endswith_paren tok)
                         || negb (PyStr.contains "(Error:" tok)
                      then PyDict.set d tok u else d)) ->
             In k (PyDict.keys d) \/ clean_sku k).
  { intros u.
    destruct (negb (PyStr.endswith_paren tok)
              || negb (PyStr.contains "(Error:" tok)) eqn:E; [|now left].
    rewrite keys_set_In. intros [H| ->]; [now left|]. right.
    unfold clean_sku, error_like. repeat split; auto.
    destruct (PyStr.endswith_paren tok), (PyStr.contains "(Error:" tok);
      simpl in *; congruence. }
  destruct (PyStr.lstrip rest); apply Hgoal.
Qed.

(** X9.  Whatever the previous file holds, every key of the loaded dictionary is
    a non-empty string without whitespace that the test of line 49 does not
    take for an error remnant, and no key occurs twice. *)
Theorem loaded_keys_clean :
  forall (content : string),
    (forall k, In k (PyDict.keys (load_previous content)) -> clean_sku k)
    /\ NoDup (PyDict.keys (load_previous content)).
Proof.
  intros content. unfold load_previous.
  assert (H : forall lines d,
             (forall k, In k (PyDict.keys d) -> clean_sku k) ->
             NoDup (PyDict.keys d) ->
             (forall k, In k (PyDict.keys (fold_left load_line lines d)) -> clean_sku k)
             /\ NoDup (PyDict.keys (fold_left load_line lines d))).
  { induction lines as [|line lines IH]; intros d Hd Hnd; [now split|].
    cbn [fold_left]. apply IH.
    - intros k Hk. apply load_line_keys in Hk. destruct Hk; auto.
    - unfold load_line.
      destruct (String.eqb (PyStr.strip line) ""); [exact Hnd|].
      destruct (PyStr.split_maxsplit1 (PyStr.strip line)) as [|s rest]; [exact Hnd|].
      destruct (negb (PyStr.endswith_paren s) || negb (PyStr.contains "(Error:" s));
        [|exact Hnd].
      now apply keys_set_NoDup. }
  apply H; [intros k []|constructor].
Qed.

Lemma split_lines_nonempty (s : string) : s <> "" -> PyStr.split_lines s <> [].
Proof.
  destruct s as [|c s]; [congruence|]. intros _. cbn [PyStr.split_lines].
  destruct (Ascii.eqb c PyStr.LF); [discriminate|].
  destruct (PyStr.split_lines s); discriminate.
Qed.

(** Cutting into lines splits at a line feed. *)
Lemma split_lines_app (a b : string) :
  PyStr.split_lines ((a ++ nl) ++ b)
  = (PyStr.split_lines (a ++ nl) ++ PyStr.split_lines b)%list.
Proof.
  induction a as [|c a IH].
  - reflexivity.
  - cbn [String.append PyStr.split_lines].
    destruct (Ascii.eqb c PyStr.LF).
    + now rewrite IH.
    + rewrite IH.
      destruct (PyStr.split_lines (a ++ nl)) as [|l ls] eqn:E; [|reflexivity].
      exfalso. revert E. apply split_lines_nonempty.
      destruct a; discriminate.
Qed.

(** The translation of newlines starts afresh after a line feed. *)
Lemma translate_app (a b : string) (after_cr : bool) :
  PyStr.translate_newlines after_cr ((a ++ nl) ++ b)
  = PyStr.translate_newlines after_cr (a ++ nl) ++ PyStr.translate_newlines false b.
Proof.
  revert after_cr. induction a as [|c a IH]; intros f.
  - cbn. now destruct f.
  - cbn [String.append PyStr.translate_newlines].
    destruct (Ascii.eqb c PyStr.CR); [now rewrite IH|].
    destruct (Ascii.eqb c PyStr.LF); [destruct f|]; now rewrite IH.
Qed.

(** A text closed by a line feed is still so once translated. *)
Lemma translate_closed (a : string) (after_cr : bool) :
  after_cr = false \/ a <> "" ->
  exists x, PyStr.translate_newlines after_cr (a ++ nl) = x ++ nl.
Proof.
  revert after_cr. induction a as [|c a IH]; intros f Hf.
  - destruct Hf as [->|Hf]; [|congruence]. now exists "".
  - cbn [String.append PyStr.translate_newlines].
    destruct (Ascii.eqb c PyStr.CR).
    + destruct a as [|c' a'].
      * now exists "".
      * destruct (IH true) as (x & ->); [right; discriminate|].
        now exists (String PyStr.LF x).
    + destruct (IH false (or_introl eq_refl)) as (x & Hx).
      destruct (Ascii.eqb c PyStr.LF); [destruct f|]; rewrite Hx.
      * now exists x.
      * now exists (String PyStr.LF x).
      * now exists (String c x).
Qed.

(** Reading lines splits at a line feed. *)
Lemma readlines_app (a b : string) :
  PyStr.readlines ((a ++ nl) ++ b)
  = (PyStr.readlines (a ++ nl) ++ PyStr.readlines b)%list.
Proof.
  unfold PyStr.readlines, PyStr.universal_newlines. rewrite translate_app.
  destruct (translate_closed a false (or_introl eq_refl)) as (x & ->).
  apply split_lines_app.
Qed.

Lemma load_previous_app (content rest : string) :
  complete_lines content ->
  load_previous (content ++ rest)
  = fold_left load_line (PyStr.readlines rest) (load_previous content).
Proof.
  unfold load_previous. intros [->|(c & ->)].
  - reflexivity.
  - now rewrite readlines_app, fold_left_app.
Qed.

(** X10.  A line for a clean record (its URL without line feed, carriage
    return or blank at either end) appended to a previous file that is
    empty or ends with a line feed overrides what the file held for that
    SKU and leaves every other SKU as it was: the last line for a SKU
    wins. *)
Theorem last_line_wins :
  forall (content : string) (item : Product) (k : string),
    complete_lines content ->
    clean_record item ->
    PyDict.lookup (load_previous (content ++ snapshot_line item)) k
    = if String.eqb (sku item) k then Some (url item)
      else PyDict.lookup (load_previous content) k.
Proof.
  intros content item k Hc Hitem.
  rewrite (load_previous_app _ _ Hc).
  pose proof (readlines_snapshot [item]) as Hr. cbn [map fold_right] in Hr.
  rewrite append_nil_r in Hr.
  rewrite Hr by (constructor; [now apply clean_single_line|constructor]).
  cbn [fold_left]. rewrite (load_line_clean _ _ Hitem).
  apply lookup_set.
Qed.

Lemma last_line_wins_witness :
  PyDict.lookup
    (load_previous (sample_previous_text ++ snapshot_line (mkProduct "A" "u9"))) "A"
  = Some "u9"
  /\ PyDict.lookup
       (load_previous (sample_previous_text ++ snapshot_line (mkProduct "A" "u9"))) "B"
     = Some "u2".
Proof.
  assert (Hc : complete_lines sample_previous_text).
  { right. exists ("A" ++ tab ++ "u1" ++ nl ++ "B" ++ tab ++ "u2"). reflexivity. }
  assert (Hitem : clean_record (mkProduct "A" "u9")).
  { unfold clean_record, clean_sku, clean_url. repeat split; discriminate. }
  split.
  - exact (last_line_wins sample_previous_text (mkProduct "A" "u9") "A" Hc Hitem).
  - exact (last_line_wins sample_previous_text (mkProduct "A" "u9") "B" Hc Hitem).
Defined.

(** ** From the probes to the report (steps 3 and 6) *)

(** X11.  With pairwise different SKUs, what the report says of a SKU follows
    from its probe and from the previous snapshot alone: in stock gives
    RESTOCKED if it was out of stock before and nothing otherwise; out of
    stock gives STILL OOS or NEWLY OOS, unless the SKU ends with [")"];
    that case and a probe that raised give ERROR if the SKU was out of
    stock before and nothing otherwise. *)
Theorem outcome_of_probe :
  forall (previous_oos_data : PyDict.t) (probes : list (string * ProbeOutcome))
         (p : string * ProbeOutcome),
    NoDup (map raw_sku (probed probes)) ->
    In p (probed probes) ->
    outcome previous_oos_data (checking_loop probes) (raw_sku p)
    = expected_outcome (present previous_oos_data (raw_sku p)) p.
Proof.
  intros prev probes p Hnd Hp.
  pose proof (instock_iff probes Hnd p Hp) as Hi.
  pose proof (confirmed_iff probes Hnd p Hp) as Hc.
  rewrite <- mem_In in Hi. rewrite <- present_keys in Hc.
  unfold outcome. rewrite classify_by_lookup. cbv zeta.
  unfold expected_outcome, is_in_stock, is_out_of_stock in *.
  destruct (present prev (raw_sku p)),
    (PySet.mem (raw_sku p) (current_instock_skus (checking_loop probes))) eqn:Em,
    (present (current_oos_dict (current_oos_products (checking_loop probes)))
       (raw_sku p)) eqn:Ep,
    (snd p), (PyStr.endswith_paren (raw_sku p));
    cbn; try reflexivity; exfalso;
    repeat match goal with
           | H : _ <-> _ |- _ => destruct H
           end;
    intuition discriminate.
Qed.

Lemma outcome_of_probe_witness :
  outcome sample_previous (checking_loop sample_probes) "C" = Some NEWLY_OOS.
Proof.
  assert (Hnd : NoDup (map raw_sku (probed sample_probes))).
  { vm_compute. repeat constructor; simpl; intuition discriminate. }
  assert (Hp : In ("C" ++ nl, OUT_OF_STOCK "u3") (probed sample_probes)).
  { vm_compute. tauto. }
  exact (outcome_of_probe sample_previous sample_probes _ Hnd Hp).
Defined.

Lemma confirmed_key_probed (probes : list (string * ProbeOutcome)) (k : string) :
  In k (PyDict.keys (current_oos_dict (current_oos_products (checking_loop probes)))) ->
  In k (map raw_sku (probed probes)).
Proof.
  rewrite current_oos_dict_keys, checking_loop_products.
  intros [(item & Hitem & Hsku) Hparen].
  apply in_flat_map in Hitem. destruct Hitem as (q & Hq & Hitem).
  unfold product_of in Hitem.
  destruct (snd q) as [|u|e u]; cbn [In] in Hitem.
  - destruct Hitem.
  - destruct Hitem as [<-|[]]. cbn [sku] in Hsku. subst k. now apply in_map.
  - destruct Hitem as [<-|[]]. cbn [sku] in Hsku.
    rewrite <- Hsku, error_sku_endswith_paren in Hparen. discriminate.
Qed.

(** X12.  A SKU of the previous snapshot that is no longer in the SKU file is
    reported as ERROR, status unknown, with its previous URL. *)
Theorem dropped_sku_reported_unknown :
  forall (previous_oos_data : PyDict.t) (probes : list (string * ProbeOutcome))
         (k prev_url : string),
    PyDict.lookup previous_oos_data k = Some prev_url ->
    ~ In k (map raw_sku (probed probes)) ->
    classify previous_oos_data (checking_loop probes) k
    = Some (ERROR_PREV_OOS, prev_url).
Proof.
  intros prev probes k u Hprev Hout.
  rewrite classify_by_lookup. cbv zeta. unfold present, PyDict.get. rewrite Hprev.
  assert (Hi : PySet.mem k (current_instock_skus (checking_loop probes)) = false).
  { apply mem_false_In. rewrite checking_loop_instock. intros H. apply Hout.
    apply in_map_iff in H. destruct H as (q & Hq & Hin).
    apply filter_In in Hin. rewrite <- Hq. apply in_map. tauto. }
  assert (Hc : PyDict.lookup
                 (current_oos_dict (current_oos_products (checking_loop probes))) k
               = None).
  { destruct (PyDict.lookup
                (current_oos_dict (current_oos_products (checking_loop probes))) k)
      eqn:E; [|reflexivity].
    exfalso. apply Hout, confirmed_key_probed, keys_In_lookup. congruence. }
  now rewrite Hi, Hc.
Qed.

Lemma dropped_sku_reported_unknown_witness :
  classify [("Z", "u0")] (checking_loop sample_probes) "Z"
  = Some (ERROR_PREV_OOS, "u0").
Proof.
  apply (dropped_sku_reported_unknown [("Z", "u0")] sample_probes "Z" "u0" eq_refl).
  vm_compute. intuition discriminate.
Defined.

(** ** The shape of the report (step 6) *)

Lemma keys_nil (d : PyDict.t) : PyDict.keys d = [] <-> d = [].
Proof. destruct d; simpl; split; congruence. Qed.

Lemma all_relevant_nil (previous_oos_data : PyDict.t) (products : list Product) :
  all_relevant_skus previous_oos_data products = []
  <-> previous_oos_data = []
      /\ Forall (fun item => PyStr.endswith_paren (sku item) = true) products.
Proof.
  split.
  - intros H.
    assert (Hno : forall x, ~ In x (all_relevant_skus previous_oos_data products)).
    { intros x. rewrite H. tauto. }
    unfold all_relevant_skus, previous_oos_skus_set, current_oos_skus_set in Hno.
    split.
    + destruct previous_oos_data as [|[k v] d]; [reflexivity|].
      exfalso. apply (Hno k). rewrite union_In, of_list_In. left. now left.
    + rewrite Forall_forall. intros item Hitem.
      destruct (PyStr.endswith_paren (sku item)) eqn:E; [reflexivity|].
      exfalso. apply (Hno (sku item)). rewrite union_In, !of_list_In. right.
      apply current_oos_dict_keys. split; [now exists item|exact E].
  - intros [-> Hall]. rewrite Forall_forall in Hall.
    destruct (all_relevant_skus [] products) as [|x l] eqn:E; [reflexivity|].
    exfalso.
    assert (Hx : In x (all_relevant_skus [] products)) by (rewrite E; now left).
    unfold all_relevant_skus, previous_oos_skus_set, current_oos_skus_set in Hx.
    rewrite union_In, !of_list_In in Hx. destruct Hx as [[]|Hx].
    apply current_oos_dict_keys in Hx. destruct Hx as [(item & Hitem & <-) Hp].
    rewrite (Hall item Hitem) in Hp. discriminate.
Qed.

Lemma summary_lines_length (st : CheckState) (s : Summary) :
  List.length (summary_lines st s)
  = 6 + (if Nat.ltb 0 (n_ERROR_PREV_OOS s) then 1 else 0).
Proof.
  unfold summary_lines. destruct (Nat.ltb 0 (n_ERROR_PREV_OOS s)); reflexivity.
Qed.

(** X13.  The report consists of its two header lines and the sentence that
    nothing is out of stock exactly when the previous snapshot is empty and
    every entry of [current_oos_products] ends with [")"]: the entries of
    probes that raised do not count, however many there are. *)
Theorem report_says_nothing_out_of_stock :
  forall (previous_oos_data : PyDict.t) (st : CheckState) (run_timestamp : string),
    analysis_report_lines previous_oos_data st run_timestamp
    = [ "Analysis Report - " ++ run_timestamp; PyStr.repeat_eq 30; NO_OOS_LINE ]
    <-> previous_oos_data = []
        /\ Forall (fun item => PyStr.endswith_paren (sku item) = true)
                  (current_oos_products st).
Proof.
  intros prev st ts. rewrite <- all_relevant_nil.
  unfold analysis_report_lines, report_header.
  destruct (all_relevant_skus prev (current_oos_products st)) as [|x l] eqn:E.
  - split; reflexivity.
  - split; [|discriminate]. intros H. exfalso.
    apply (f_equal (@List.length string)) in H.
    cbn [app List.length] in H. rewrite length_app, summary_lines_length in H.
    lia.
Qed.

Lemma report_says_nothing_out_of_stock_witness :
  analysis_report_lines [] (checking_loop failing_probes) "T"
  = [ "Analysis Report - T"; PyStr.repeat_eq 30; NO_OOS_LINE ]
  /\ total_currently_oos (checking_loop failing_probes) = 2.
Proof.
  split; [|reflexivity].
  apply (proj2 (report_says_nothing_out_of_stock [] (checking_loop failing_probes) "T")).
  split; [reflexivity|]. repeat constructor.
Defined.

Lemma flat_map_singletons {A B : Type} (f : A -> list B) (l : list A) :
  (forall x, In x l -> List.length (f x) = 1) ->
  List.length (flat_map f l) = List.length l.
Proof.
  induction l as [|x l IH]; intros H; [reflexivity|].
  cbn [flat_map]. rewrite length_app, (H x (or_introl eq_refl)), IH; [reflexivity|].
  intros y Hy. apply H. now right.
Qed.

(** X14.  The report has one status line for each relevant SKU, between the two
    header lines and the summary of six lines, or seven when a SKU has an
    unknown status. *)
Theorem report_length :
  forall (previous_oos_data : PyDict.t) (st : CheckState) (run_timestamp : string),
    let skus := all_relevant_skus previous_oos_data (current_oos_products st) in
    let summary := snd (analysis_loop previous_oos_data st) in
    List.length (fst (analysis_loop previous_oos_data st)) = List.length skus
    /\ List.length (analysis_report_lines previous_oos_data st run_timestamp)
       = match skus with
         | [] => 3
         | _ :: _ =>
             List.length skus + 8
             + (if Nat.ltb 0 (n_ERROR_PREV_OOS summary) then 1 else 0)
         end.
Proof.
  intros prev st ts skus summary.
  assert (Hlines : List.length (fst (analysis_loop prev st)) = List.length skus).
  { rewrite analysis_loop_lines, flat_map_singletons.
    - apply sorted_length.
    - intros x Hx. apply sorted_In in Hx.
      pose proof (relevant_has_line prev st x Hx) as Hl.
      unfold no_line, outcome, status_lines_of in *.
      destruct (classify prev st x) as [[s u]|]; [reflexivity|discriminate]. }
  split; [exact Hlines|].
  unfold analysis_report_lines, report_header. fold skus.
  destruct skus as [|x l] eqn:E; [reflexivity|].
  cbn [app List.length].
  rewrite length_app, summary_lines_length, Hlines. fold summary.
  cbn [List.length]. lia.
Qed.

(** ** What the checking loop uses of a line (step 3) *)


Lemma check_sku_record (st : CheckState) (p : string * ProbeOutcome) :
  check_sku st p
  = if String.eqb (raw_sku p) "" then st else record_outcome st (canonical p).
Proof.
  destruct p as [line o]. unfold check_sku, raw_sku, record_outcome, canonical.
  cbn [fst snd]. destruct (String.eqb (PyStr.strip line) ""); [reflexivity|].
  now destruct o.
Qed.

Lemma check_fold_canonical (probes : list (string * ProbeOutcome)) (st : CheckState) :
  fold_left check_sku probes st
  = fold_left record_outcome (map canonical (probed probes)) st.
Proof.
  revert st. induction probes as [|[line o] probes IH]; intros st; [reflexivity|].
  cbn [fold_left]. rewrite IH, probed_cons, check_sku_record.
  unfold raw_sku at 1. cbn [fst].
  now destruct (String.eqb (PyStr.strip line) "").
Qed.

(** X15.  Two SKU files that give the same stripped SKUs with the same
    outcomes, blank lines left out, lead to the same in-stock set and the
    same current out-of-stock list: blank lines and blanks around a SKU
    play no part. *)
Theorem checking_loop_ignores_blanks :
  forall (probes probes' : list (string * ProbeOutcome)),
    map canonical (probed probes) = map canonical (probed probes') ->
    checking_loop probes = checking_loop probes'.
Proof.
  intros probes probes' H. unfold checking_loop.
  now rewrite !check_fold_canonical, H.
Qed.

Lemma checking_loop_ignores_blanks_witness :
  checking_loop untidy_probes = checking_loop sample_probes.
Proof. exact (checking_loop_ignores_blanks untidy_probes sample_probes eq_refl). Defined.

(** ** The SKUs that are probed (steps 2 and 3) *)

Lemma has_char_lstrip (c : ascii) (s : string) :
  has_char c s = false -> has_char c (PyStr.lstrip s) = false.
Proof.
  induction s as [|x s IH]; [reflexivity|].
  cbn [PyStr.lstrip]. destruct (PyStr.isspace x); [|tauto].
  cbn [has_char]. rewrite orb_false_iff. intros [_ H]. auto.
Qed.

Lemma has_char_rstrip (c : ascii) (s : string) :
  has_char c s = false -> has_char c (PyStr.rstrip s) = false.
Proof.
  induction s as [|x s IH]; [reflexivity|].
  cbn [has_char PyStr.rstrip]. rewrite orb_false_iff. intros [Hx Hs].
  specialize (IH Hs). destruct (PyStr.rstrip s).
  - destruct (PyStr.isspace x); [reflexivity|]. cbn [has_char]. now rewrite Hx.
  - cbn [has_char] in *. now rewrite Hx, IH.
Qed.

Lemma lstrip_append_lf (s : string) :
  PyStr.lstrip (s ++ nl) = "" \/ PyStr.lstrip (s ++ nl) = PyStr.lstrip s ++ nl.
Proof.
  induction s as [|x s IH]; [now left|].
  cbn [String.append PyStr.lstrip]. destruct (PyStr.isspace x); [exact IH|now right].
Qed.

(** A line as the cut into lines gives it: without line feed, except for
    a last character. *)
Lemma split_lines_line_shape (content line : string) :
  In line (PyStr.split_lines content) ->
  exists body, has_char PyStr.LF body = false /\ (line = body \/ line = body ++ nl).
Proof.
  revert line. induction content as [|c s IH]; intros line; [intros []|].
  cbn [PyStr.split_lines]. destruct (Ascii.eqb c PyStr.LF) eqn:E.
  - intros [<-|H]; [|now apply IH].
    apply Ascii.eqb_eq in E. subst c. exists "". split; [reflexivity|now right].
  - destruct (PyStr.split_lines s) as [|l ls].
    + intros [<-|[]]. exists (String c ""). split; [|now left].
      cbn [has_char]. now rewrite E.
    + intros [<-|H].
      * destruct (IH l (or_introl eq_refl)) as (body & Hb & Hl).
        exists (String c body). split; [cbn [has_char]; now rewrite E, Hb|].
        destruct Hl as [->| ->]; [now left|now right].
      * apply IH. now right.
Qed.

(** X16.  Every SKU that a run probes is non-empty and holds no line feed, so a
    line feed in a line of the current file can only come from a URL or
    from the name of an exception. *)
Theorem probed_skus_single_line :
  forall (prober : nat -> string -> ProbeOutcome) (content : string)
         (p : string * ProbeOutcome),
    In p (probed (probes_of prober (PyStr.readlines content))) ->
    raw_sku p <> "" /\ has_char PyStr.LF (raw_sku p) = false.
Proof.
  intros prober content p Hp. unfold probed in Hp.
  apply filter_In in Hp. destruct Hp as [Hp Hne]. split.
  - intros E. rewrite E in Hne. discriminate.
  - apply probes_of_In in Hp. destruct Hp as (i & line & Hline & ->).
    unfold raw_sku. cbn [fst]. unfold PyStr.strip.
    unfold PyStr.readlines in Hline.
    destruct (split_lines_line_shape _ _ Hline) as (body & Hb & [->| ->]).
    + now apply has_char_rstrip, has_char_lstrip.
    + destruct (lstrip_append_lf body) as [->| ->]; [reflexivity|].
      unfold nl. rewrite rstrip_append_space by reflexivity.
      now apply has_char_rstrip, has_char_lstrip.
Qed.

Lemma probed_skus_single_line_witness :
  raw_sku ("A-1" ++ nl, sample_prober 0 "A-1") <> ""
  /\ has_char PyStr.LF (raw_sku ("A-1" ++ nl, sample_prober 0 "A-1")) = false.
Proof.
  apply (probed_skus_single_line sample_prober ("A-1" ++ nl ++ nl ++ " B")).
  vm_compute. now left.
Defined.

(** ** Whole runs *)

Lemma read_previous_value (w : World) :
  exists w', read_previous w = Ok (previous_of (files w), w')
             /\ files w' = files w.
Proof.
  unfold read_previous, open_read, previous_of.
  destruct (files w PREVIOUS_OOS_FILE_PATH); eexists; split; reflexivity.
Qed.

(** A run that finds its SKU file. *)
Lemma main_finished (run_timestamp : string) (prober : nat -> string -> ProbeOutcome)
    (w : World) (content : string) :
  files w SKU_FILE_PATH = Some content ->
  let st := check_state_of prober content in
  let report := analysis_report_lines (previous_of (files w)) st run_timestamp in
  exists w',
    main run_timestamp prober w = Ok (Finished w' report)
    /\ files w' SKU_FILE_PATH = Some content
    /\ files w' CURRENT_OOS_FILE_PATH = Some (snapshot_text (current_oos_products st))
    /\ files w' PREVIOUS_OOS_FILE_PATH
       = match files w CURRENT_OOS_FILE_PATH with
         | Some old => Some old
         | None => files w PREVIOUS_OOS_FILE_PATH
         end
    /\ files w' CHANGE_REPORT_FILE_PATH = Some (report_text report).
Proof.
  intros Hsku st report. unfold report, st, check_state_of, previous_of.
  unfold main, read_previous, open_read, rotate_files, os_replace.
  destruct (files w PREVIOUS_OOS_FILE_PATH) as [prev|] eqn:Hprev;
    cbn [bind files events]; rewrite Hsku; cbn [files events];
    destruct (files w CURRENT_OOS_FILE_PATH) as [old|] eqn:Hcur;
    cbn [bind]; eexists; (split; [reflexivity|]);
    cbn [write_change_report WRITE_CHANGE_REPORT_FILE write_current_oos
           open_write files events files_set Path_eqb];
    rewrite ?Hprev, ?Hsku; repeat split; reflexivity.
Qed.

(** X17.  Without a SKU file the run ends after step 1: nothing is probed, no
    file is moved or written, and the only file event is the read of the
    previous file, if there is one. *)
Theorem missing_sku_file_exits :
  forall (run_timestamp : string) (prober : nat -> string -> ProbeOutcome) (w : World),
    files w SKU_FILE_PATH = None ->
    exists w',
      main run_timestamp prober w = Ok (Exited w')
      /\ files w' = files w
      /\ events w'
         = app (events w)
               (match files w PREVIOUS_OOS_FILE_PATH with
                | Some _ => [EvRead PREVIOUS_OOS_FILE_PATH]
                | None => []
                end).
Proof.
  intros ts prober w Hsku. unfold main, read_previous, open_read.
  destruct (files w PREVIOUS_OOS_FILE_PATH) as [prev|];
    cbn [bind files events]; rewrite Hsku; eexists; repeat split.
  cbn [events]. now rewrite app_nil_r.
Qed.

Lemma missing_sku_file_exits_witness :
  exists w',
    main "T" sample_prober (mkWorld no_sku_files []) = Ok (Exited w')
    /\ files w' = no_sku_files
    /\ events w' = [EvRead PREVIOUS_OOS_FILE_PATH].
Proof.
  exact (missing_sku_file_exits "T" sample_prober (mkWorld no_sku_files []) eq_refl).
Defined.

(** X18.  Two runs in a row.  The second run compares with what the
    current file held before the first run, not with the snapshot that the
    first run wrote; that snapshot is in the previous file only after the
    second run, and a third run loads it from there, read line by line in
    text mode. *)
Theorem baseline_is_two_runs_old :
  forall (ts1 ts2 : string) (prober1 prober2 : nat -> string -> ProbeOutcome)
         (w : World) (content : string),
    files w SKU_FILE_PATH = Some content ->
    let st1 := check_state_of prober1 content in
    let st2 := check_state_of prober2 content in
    let baseline2 :=
      match files w CURRENT_OOS_FILE_PATH with
      | Some old => load_previous old
      | None => previous_of (files w)
      end in
    exists w1 r1 w2 w3,
      main ts1 prober1 w = Ok (Finished w1 r1)
      /\ main ts2 prober2 w1
         = Ok (Finished w2 (analysis_report_lines baseline2 st2 ts2))
      /\ read_previous w2
         = Ok (load_previous (snapshot_text (current_oos_products st1)), w3).
Proof.
  intros ts1 ts2 prober1 prober2 w content Hsku st1 st2 baseline2.
  destruct (main_finished ts1 prober1 w content Hsku)
    as (w1 & Hrun1 & Hsku1 & Hcur1 & Hprev1 & _).
  destruct (main_finished ts2 prober2 w1 content Hsku1)
    as (w2 & Hrun2 & _ & _ & Hprev2 & _).
  destruct (read_previous_value w2) as (w3 & Hread & _).
  eexists w1, _, w2, w3. split; [exact Hrun1|]. split.
  - rewrite Hrun2. do 3 f_equal. unfold previous_of, baseline2. rewrite Hprev1.
    destruct (files w CURRENT_OOS_FILE_PATH); reflexivity.
  - rewrite Hread. do 2 f_equal. unfold previous_of.
    rewrite Hprev2, Hcur1. reflexivity.
Qed.

Lemma baseline_is_two_runs_old_witness :
  exists w1 r1 w2 w3,
    main "T1" sample_prober (mkWorld later_run_files []) = Ok (Finished w1 r1)
    /\ main "T2" sample_prober w1
       = Ok (Finished w2
               [ "Analysis Report - T2"; PyStr.repeat_eq 30;
                 "[+] RESTOCKED  : A (Was OOS: u1)";
                 "[!] NEWLY OOS  : B (Link: u_B)";
                 PyStr.repeat_eq 30; "Summary:";
                 "  Restocked:        1"; "  Still OutOfStock: 0";
                 "  Newly OutOfStock: 1";
                 "  Total Currently OOS (incl errors): 1" ])
    /\ read_previous w2 = Ok ([("B", "u_B")], w3).
Proof.
  exact (baseline_is_two_runs_old "T1" "T2" sample_prober sample_prober
           (mkWorld later_run_files []) ("B" ++ nl ++ "A" ++ nl) eq_refl).
Defined.

(** ** More on the order of the current file (step 7) *)

Lemma insert_sorted_filter {A : Type} (key : A -> string) (k : string)
    (x : A) (l : list A) :
  filter (fun y => String.eqb (key y) k) (insert_sorted key x l)
  = filter (fun y => String.eqb (key y) k) (x :: l).
Proof.
  induction l as [|y r IH]; [reflexivity|].
  cbn [insert_sorted]. destruct (String.ltb (key y) (key x)) eqn:E; [|reflexivity].
  cbn [filter] in *. rewrite IH.
  destruct (String.eqb (key x) k) eqn:Ex; [|reflexivity].
  destruct (String.eqb (key y) k) eqn:Ey; [|reflexivity].
  apply String.eqb_eq in Ex, Ey. rewrite Ex, Ey, ltb_irrefl in E. discriminate.
Qed.

(** X19.  The records that share a SKU text are written in the order in which
    they were appended to [current_oos_products]. *)
Theorem snapshot_order_stable :
  forall (products : list Product) (k : string),
    filter (fun item => String.eqb (sku item) k) (sorted sku products)
    = filter (fun item => String.eqb (sku item) k) products.
Proof.
  intros products k. induction products as [|x l IH]; [reflexivity|].
  cbn [sorted fold_right]. fold (sorted sku l).
  rewrite insert_sorted_filter. cbn [filter]. now rewrite IH.
Qed.

Lemma sorted_of_ordered {A : Type} (key : A -> string) (l : list A) :
  StronglySorted (fun a b => le_str (key a) (key b)) l -> sorted key l = l.
Proof.
  induction 1 as [|x l Hl IH Hx]; [reflexivity|].
  cbn [sorted fold_right]. fold (sorted key l). rewrite IH.
  destruct l as [|y r]; [reflexivity|].
  cbn [insert_sorted]. inversion Hx as [|? ? Hxy _]; subst.
  unfold le_str in Hxy. now rewrite Hxy.
Qed.

(** X20.  A list that is already in ascending order of SKU is written as it
    is; so writing what has been sorted once changes nothing. *)
Theorem snapshot_of_ordered_list :
  forall (products : list Product),
    (StronglySorted (fun a b => String.leb (sku a) (sku b) = true) products ->
     snapshot_text products
     = fold_right String.append "" (map snapshot_line products))
    /\ snapshot_text (sorted sku products) = snapshot_text products.
Proof.
  intros products. split.
  - intros H. unfold snapshot_text. rewrite sorted_of_ordered; [reflexivity|].
    induction H as [|x l _ IH Hx]; constructor; [exact IH|].
    rewrite Forall_forall in *. intros y Hy. now apply le_str_leb, Hx.
  - unfold snapshot_text.
    now rewrite (sorted_of_ordered sku _ (sorted_ordered sku products)).
Qed.

Lemma snapshot_of_ordered_list_witness :
  snapshot_text [ mkProduct "A" "u1"; mkProduct "B" "u2"; mkProduct "B" "u0" ]
  = "A" ++ tab ++ "u1" ++ nl ++ "B" ++ tab ++ "u2" ++ nl ++ "B" ++ tab ++ "u0" ++ nl.
Proof.
  rewrite (proj1 (snapshot_of_ordered_list
                    [ mkProduct "A" "u1"; mkProduct "B" "u2"; mkProduct "B" "u0" ])).
  - reflexivity.
  - repeat constructor.
Defined.

(** ** The report file (lines 207-215) *)

(** X21.  The report file holds every line of the report followed by a
    line feed.  When no line of the report holds a line feed or a carriage
    return, the file read back line by line in text mode gives the lines
    of the report, each closed by a line feed. *)
Theorem report_file_lines :
  forall (w : World) (lines : list string),
    Forall (fun line => has_char PyStr.LF line = false
                        /\ has_char PyStr.CR line = false) lines ->
    files (write_change_report w lines) CHANGE_REPORT_FILE_PATH
    = Some (report_text lines)
    /\ PyStr.readlines (report_text lines) = map (fun line => line ++ nl) lines.
Proof.
  intros w lines H. split; [reflexivity|]. unfold report_text.
  rewrite readlines_without_cr.
  - induction H as [|line lines [Hline _] _ IH]; [reflexivity|].
    cbn [map fold_right]. rewrite append_assoc. cbn [String.append].
    rewrite (split_lines_first_line _ _ Hline). now rewrite IH.
  - induction H as [|line lines [_ Hline] _ IH]; [reflexivity|].
    cbn [map fold_right]. rewrite !has_char_append, Hline, IH. reflexivity.
Qed.

Lemma report_file_lines_witness :
  PyStr.readlines
    (report_text (analysis_report_lines sample_previous (checking_loop sample_probes) "T"))
  = map (fun line => line ++ nl)
        (analysis_report_lines sample_previous (checking_loop sample_probes) "T").
Proof.
  apply (report_file_lines (mkWorld first_run_files [])).
  vm_compute. repeat constructor.
Defined.

(** ** The observation sets on a sample run *)

Lemma observation_sets_disjoint_witness :
  ~ (In "B" (current_instock_skus (checking_loop sample_probes))
     /\ In "B" (PyDict.keys (current_oos_dict
                               (current_oos_products (checking_loop sample_probes))))).
Proof.
  assert (Hnd : NoDup (map raw_sku (probed sample_probes))).
  { vm_compute. repeat constructor; simpl; intuition discriminate. }
  assert (Hp : In ("B" ++ nl, OUT_OF_STOCK "u2b") (probed sample_probes)).
  { vm_compute. tauto. }
  exact (proj1 (observation_sets_disjoint sample_probes Hnd _ Hp)).
Defined.

Lemma observation_sets_cover_witness :
  In "B" (current_instock_skus (checking_loop sample_probes))
  \/ In "B" (PyDict.keys (current_oos_dict
                            (current_oos_products (checking_loop sample_probes))))
  \/ In "B" (errored_skus sample_probes).
Proof.
  assert (Hnd : NoDup (map raw_sku (probed sample_probes))).
  { vm_compute. repeat constructor; simpl; intuition discriminate. }
  assert (Hp : In ("B" ++ nl, OUT_OF_STOCK "u2b") (probed sample_probes)).
  { vm_compute. tauto. }
  exact (observation_sets_cover sample_probes Hnd _ Hp eq_refl).
Defined.
